(** * FSC moodlet: a shallow embedding of the widget and its helpers

    The repository holds a React component, [FSCMoodlet], in two versions
    (an earlier one without a [disabled] prop and the current one with it),
    the style-token helper [joinClassNames] and a demo host [App].

    The embedding follows the TypeScript source:
    - the two string-literal union types are inductive types, together with
      the string each constructor stands for;
    - the [states] object is a finite map from actions to states, the object
      spread is the (left-biased) union of maps and the computed-key update
      is the map insertion;
    - a click handler is a computation in a small state-and-failure monad
      over the component instance: the React state cell, the number of
      [setStates] calls, the host's world (what [onChange] acts on) and the
      event's [defaultPrevented] flag. *)

From Stdlib Require Import Ascii String.
From stdpp Require Import gmap strings list fin_maps.

Local Open Scope string_scope.

(** ** The two enumerations *)

(** [type FSCState = 'NOT_REQUIRED' | 'REQUIRED' | 'CURRENT' | 'COMPLETED'] *)
Inductive FSCState : Set :=
  | NOT_REQUIRED
  | REQUIRED
  | CURRENT
  | COMPLETED.

(** [type FSCAction = 'FUELLING' | 'SERVICING' | 'CLEANING'] *)
Inductive FSCAction : Set :=
  | FUELLING
  | SERVICING
  | CLEANING.

(** ['letter' | 'word'] *)
Inductive Variant : Set :=
  | letter
  | word.

(** The string literal behind each constructor. *)
Definition state_literal (s : FSCState) : string :=
  match s with
  | NOT_REQUIRED => "NOT_REQUIRED"
  | REQUIRED => "REQUIRED"
  | CURRENT => "CURRENT"
  | COMPLETED => "COMPLETED"
  end.

Definition action_literal (a : FSCAction) : string :=
  match a with
  | FUELLING => "FUELLING"
  | SERVICING => "SERVICING"
  | CLEANING => "CLEANING"
  end.

#[global] Instance FSCState_eq_dec : EqDecision FSCState.
Proof. solve_decision. Defined.

#[global] Instance FSCAction_eq_dec : EqDecision FSCAction.
Proof. solve_decision. Defined.

#[global] Instance Variant_eq_dec : EqDecision Variant.
Proof. solve_decision. Defined.

Definition FSCAction_to_nat (a : FSCAction) : nat :=
  match a with
  | FUELLING => 0
  | SERVICING => 1
  | CLEANING => 2
  end.

Definition FSCAction_of_nat (n : nat) : option FSCAction :=
  match n with
  | 0 => Some FUELLING
  | 1 => Some SERVICING
  | 2 => Some CLEANING
  | _ => None
  end.

#[global] Program Instance FSCAction_countable : Countable FSCAction :=
  inj_countable FSCAction_to_nat FSCAction_of_nat _.
Next Obligation. by intros []. Qed.

(** The key set of a [Record<FSCAction, FSCState>]. *)
Definition all_actions : gset FSCAction := {[FUELLING; SERVICING; CLEANING]}.

(** ** The JavaScript built-ins the source calls

    A value of type [string | undefined] is an [option string], with [None]
    for [undefined]. *)
Module JS.

(** [Boolean(v)] on [string | undefined]: [undefined] and the empty string
    are falsy, every other string is truthy. *)
Definition Boolean (v : option string) : bool :=
  match v with
  | None => false
  | Some s => negb (Nat.eqb (String.length s) 0)
  end.

(** How [Array.prototype.join] prints one element: [undefined] gives the
    empty string. *)
Definition element_text (v : option string) : string :=
  match v with
  | None => ""
  | Some s => s
  end.

(** [arr.join(sep)] *)
Fixpoint join (sep : string) (arr : list (option string)) : string :=
  match arr with
  | [] => ""
  | [v] => element_text v
  | v :: rest => element_text v ++ sep ++ join sep rest
  end.

(** [s[0]]: the one-character string at index 0, [undefined] when [s] is
    empty. *)
Definition index0 (s : string) : option string :=
  match s with
  | EmptyString => None
  | String c _ => Some (String c EmptyString)
  end.

(** [toLowerCase] on one ASCII character: the 26 capital letters move to
    their small counterparts, everything else stays. *)
Definition lower_ascii (c : ascii) : ascii :=
  let n := nat_of_ascii c in
  if (Nat.leb 65 n && Nat.leb n 90)%bool then ascii_of_nat (n + 32) else c.

(** [s.toLowerCase()], for ASCII strings. *)
Fixpoint toLowerCase (s : string) : string :=
  match s with
  | EmptyString => EmptyString
  | String c rest => String (lower_ascii c) (toLowerCase rest)
  end.

(** [s.replace(pat, by)] with a one-character string pattern: only the
    first occurrence is replaced. *)
Fixpoint replace (pat : ascii) (by_ : string) (s : string) : string :=
  match s with
  | EmptyString => EmptyString
  | String c rest =>
      if Ascii.eqb c pat then by_ ++ rest else String c (replace pat by_ rest)
  end.

End JS.

(** ** [joinClassNames] (src/lib/utils/join-class-names.ts)

    [(...classes) => classes.filter(Boolean).join(' ')] *)
Definition joinClassNames (classes : list (option string)) : string :=
  JS.join " " (List.filter JS.Boolean classes).

(** The tokens of a sequence that are present, as the specification words
    it: defined and not the empty string, in their order. *)
Definition present_token (c : option string) : option string :=
  match c with
  | Some s => if decide (s = "") then None else Some s
  | None => None
  end.

Definition present_tokens (classes : list (option string)) : list string :=
  omap present_token classes.

(** ** The transition table

    [stateFlow] is the object literal both versions of [getNextState]
    build; every [FSCState] is one of its keys, so the lookup
    [stateFlow[currentState]] is total. *)
Definition stateFlow (currentState : FSCState) : FSCState :=
  match currentState with
  | NOT_REQUIRED => REQUIRED
  | REQUIRED => CURRENT
  | CURRENT => COMPLETED
  | COMPLETED => CURRENT
  end.

(** The table of the specification, as a list of (current, next) rows. *)
Definition next_table : list (FSCState * FSCState) :=
  [ (NOT_REQUIRED, REQUIRED); (REQUIRED, CURRENT);
    (CURRENT, COMPLETED); (COMPLETED, CURRENT) ].

(** ** The component instance and its handler monad *)

(** What one mounted component owns and can touch: the React state cell
    behind [useState], how often [setStates] was called, the host's world
    [W] on which the [onChange] callback acts, and the [defaultPrevented]
    flag of the event being handled. *)
Record Runtime (W : Type) : Type := MkRuntime {
  states_cell : gmap FSCAction FSCState;
  setStates_calls : nat;
  host : W;
  defaultPrevented : bool
}.

Arguments MkRuntime {W} _ _ _ _.
Arguments states_cell {W} _.
Arguments setStates_calls {W} _.
Arguments host {W} _.
Arguments defaultPrevented {W} _.

(** A handler runs on the instance and may get stuck ([None]) when it
    reads, at type [FSCState], a key that the object does not have: the
    type [Record<FSCAction, FSCState>] rules that out, and
    [handleClick_total] below shows it never happens on a well-formed
    map. *)
Definition M (W A : Type) : Type := Runtime W → option (A * Runtime W).

#[global] Instance M_ret W : MRet (M W) :=
  λ A x rt, Some (x, rt).

#[global] Instance M_bind W : MBind (M W) :=
  λ A B k m rt,
    match m rt with
    | Some (x, rt') => k x rt'
    | None => None
    end.

(** [e.preventDefault()] *)
Definition preventDefault {W} : M W unit :=
  λ rt, Some (tt, MkRuntime (states_cell rt) (setStates_calls rt) (host rt) true).

(** [states[item]], used where an [FSCState] is required. *)
Definition read_state {W} (states : gmap FSCAction FSCState) (item : FSCAction)
  : M W FSCState :=
  λ rt, match states !! item with
        | Some s => Some (s, rt)
        | None => None
        end.

(** [setStates(updater)], with the functional updater applied to the
    latest value of the cell. *)
Definition setStates {W}
  (updater : gmap FSCAction FSCState → gmap FSCAction FSCState) : M W unit :=
  λ rt, Some (tt, MkRuntime (updater (states_cell rt)) (S (setStates_calls rt))
                            (host rt) (defaultPrevented rt)).

(** [callback?.(item, newState)]: nothing happens when the callback is
    [undefined]. *)
Definition optional_call {W} (callback : option (FSCAction → FSCState → W → W))
  (item : FSCAction) (newState : FSCState) : M W unit :=
  λ rt, match callback with
        | Some f => Some (tt, MkRuntime (states_cell rt) (setStates_calls rt)
                                        (f item newState (host rt))
                                        (defaultPrevented rt))
        | None => Some (tt, rt)
        end.

(** The object spread [{ ...base, ...extra }]: keys of [extra] win. *)
Definition spread {V} (base extra : gmap FSCAction V) : gmap FSCAction V :=
  extra ∪ base.

(** [{ FUELLING: 'REQUIRED', SERVICING: 'REQUIRED', CLEANING: 'REQUIRED' }] *)
Definition default_states : gmap FSCAction FSCState :=
  <[CLEANING := REQUIRED]> (<[SERVICING := REQUIRED]> (<[FUELLING := REQUIRED]> ∅)).

(** An object whose values may be [undefined], as the component reads it:
    [states[item]] is [undefined] for a key that holds [undefined] just as
    for a key that is not there, so both are a key without a state. *)
Definition defined_entries (object : gmap FSCAction (option FSCState))
  : gmap FSCAction FSCState :=
  omap id object.

(** The two gestures a button reacts to: [onClick] (primary activation)
    and [onContextMenu] (secondary activation). *)
Inductive Gesture : Set :=
  | Click
  | ContextMenu.

(** A well-formed [Record<FSCAction, FSCState>]: exactly the three keys. *)
Definition well_formed (states : gmap FSCAction FSCState) : Prop :=
  dom states = all_actions.

(** What [renderMoodlet] puts on the [<button>]. *)
Record Button : Type := MkButton {
  button_key : FSCAction;
  button_label : option string;
  button_className : string;
  button_title : string;
  button_disabled : bool
}.

(** What the component returns: the outer [<div>] and its three buttons. *)
Record View : Type := MkView {
  container_className : string;
  buttons : list Button
}.

(** ** The current component (the version with the [disabled] prop) *)
Module Moodlet.

(** [interface IFSCMoodletProps]: every prop is optional.
    [initialStates] is a [Partial<Record<FSCAction, FSCState>>]: a key may
    be left out, and a key that is there may hold [undefined] (the inner
    [None]) as well as a state. *)
Record IFSCMoodletProps (W : Type) : Type := MkProps {
  initialStates : option (gmap FSCAction (option FSCState));
  variant : option Variant;
  className : option string;
  onChange : option (FSCAction → FSCState → W → W);
  disabled : option bool
}.

Arguments MkProps {W} _ _ _ _ _.
Arguments initialStates {W} _.
Arguments variant {W} _.
Arguments className {W} _.
Arguments onChange {W} _.
Arguments disabled {W} _.

Section FSCMoodlet.

Context {W : Type} (props : IFSCMoodletProps W).

(** The destructuring defaults: [initialStates = {}], [variant = 'letter'],
    [disabled = false]. *)
Definition initialStates_ : gmap FSCAction (option FSCState) :=
  default ∅ (initialStates props).

Definition variant_ : Variant := default letter (variant props).

Definition disabled_ : bool := default false (disabled props).

(** The [useState] initializer:
    [{ FUELLING: 'REQUIRED', SERVICING: 'REQUIRED', CLEANING: 'REQUIRED',
       ...initialStates }].
    The spread copies every key of [initialStates] over the defaults, a
    key holding [undefined] included; the entry of such a key is then
    [undefined], which in the state map is a key with no state. *)
Definition initial_states : gmap FSCAction FSCState :=
  defined_entries (spread (Some <$> default_states) initialStates_).

Definition getNextState (currentState : FSCState) : FSCState :=
  if decide (currentState = COMPLETED) then CURRENT
  else stateFlow currentState.

Definition handleClick (states : gmap FSCAction FSCState) (item : FSCAction)
  (isRightClick : bool) : M W unit :=
  preventDefault ;;
  if disabled_ then mret tt
  else
    newState ← (if isRightClick then mret NOT_REQUIRED
                else s ← read_state states item; mret (getNextState s));
    setStates (λ prev, <[item := newState]> prev) ;;
    optional_call (onChange props) item newState.

Definition getStateStyle (state : FSCState) : string :=
  let baseStyle := "transition-colors duration-200" in
  let styles :=
    match state with
    | NOT_REQUIRED => "bg-purple-100 text-purple-700 hover:bg-purple-200"
    | REQUIRED => "bg-purple-200 text-purple-800 hover:bg-purple-300"
    | CURRENT => "bg-red-200 text-red-800 hover:bg-red-300"
    | COMPLETED => "bg-green-200 text-green-800 hover:bg-green-300"
    end in
  joinClassNames
    [ Some baseStyle; Some styles;
      if disabled_ then Some "opacity-50 cursor-not-allowed" else None ].

(** [renderMoodlet]: the button of one action. Rendering throws when
    [states[item]] is [undefined] (the call [state.replace]), hence the
    option. The two handlers it installs are [onClick] and
    [onContextMenu] below. *)
Definition renderMoodlet (states : gmap FSCAction FSCState) (item : FSCAction)
  : option Button :=
  let label :=
    if decide (variant_ = letter) then JS.index0 (action_literal item)
    else Some (JS.toLowerCase (action_literal item)) in
  state ← states !! item;
  let buttonSize := if decide (variant_ = letter) then "w-8 h-8" else "px-4 py-1" in
  Some {| button_key := item;
          button_label := label;
          button_className :=
            joinClassNames
              [ Some "rounded-full font-medium";
                Some "focus:outline-none focus:ring-2 focus:ring-offset-2 focus:ring-purple-500";
                Some buttonSize;
                Some (getStateStyle state) ];
          button_title := action_literal item ++ " - "
                     ++ JS.replace "_"%char " " (state_literal state);
          button_disabled := disabled_ |}.

(** [onClick={handleClick(item)}]: the second parameter takes its default,
    [false]. *)
Definition onClick (states : gmap FSCAction FSCState) (item : FSCAction)
  : M W unit :=
  handleClick states item false.

(** [onContextMenu={handleClick(item, true)}] *)
Definition onContextMenu (states : gmap FSCAction FSCState) (item : FSCAction)
  : M W unit :=
  handleClick states item true.

(** The body of the component for the current value of the state cell. *)
Definition render (states : gmap FSCAction FSCState) : option View :=
  f ← renderMoodlet states FUELLING;
  s ← renderMoodlet states SERVICING;
  c ← renderMoodlet states CLEANING;
  Some {| container_className :=
            joinClassNames
              [ Some "flex gap-2 items-center p-1";
                Some (if disabled_ then "cursor-not-allowed" else "cursor-pointer");
                className props ];
          buttons := [f; s; c] |}.

(** Mounting the component in a host whose world is [w]. *)
Definition mount (w : W) : Runtime W :=
  MkRuntime initial_states 0 w false.

(** One user gesture on the button of [item]. The handler that runs is the
    one installed by the latest render, so the [states] it closes over is
    the current value of the cell; the event it receives is fresh.
    The button is rendered with [disabled={disabled}]: a disabled button
    gets no click event, so on a disabled component a click never reaches
    [onClick] and nothing runs, [e.preventDefault()] included. A
    right-click is handed to [onContextMenu] in either case. *)
Definition activate (g : Gesture) (item : FSCAction) : M W unit :=
  λ rt,
    let states := states_cell rt in
    let e := MkRuntime (states_cell rt) (setStates_calls rt) (host rt) false in
    match g with
    | Click => if disabled_ then Some (tt, e) else onClick states item e
    | ContextMenu => onContextMenu states item e
    end.

(** A sequence of gestures, one after the other. *)
Fixpoint activate_all (gs : list (Gesture * FSCAction)) : M W unit :=
  match gs with
  | [] => mret tt
  | (g, item) :: rest => activate g item ;; activate_all rest
  end.

End FSCMoodlet.

End Moodlet.

(** ** The first version of the component (no [disabled] prop) *)
Module MoodletV1.

(** [interface FSCMoodletProps]: [initialStates], when given, is a full
    [Record<FSCAction, FSCState>]. *)
Record FSCMoodletProps (W : Type) : Type := MkProps {
  initialStates : option (gmap FSCAction FSCState);
  variant : option Variant;
  className : option string;
  onChange : option (FSCAction → FSCState → W → W)
}.

Arguments MkProps {W} _ _ _ _.
Arguments initialStates {W} _.
Arguments variant {W} _.
Arguments className {W} _.
Arguments onChange {W} _.

Section FSCMoodlet.

Context {W : Type} (props : FSCMoodletProps W).

(** [cn], imported from [../lib/utils/merge-class-names]; that file is not
    part of the sources at hand, so the function is a parameter of this
    version's rendering. *)
Variable cn : list (option string) → string.

Definition variant_ : Variant := default letter (variant props).

(** The [useState] initializer; spreading [undefined] adds no key. *)
Definition initial_states : gmap FSCAction FSCState :=
  spread default_states (default ∅ (initialStates props)).

Definition getNextState (currentState : FSCState) : FSCState :=
  stateFlow currentState.

(** The handler first stores [states[item]] in [newState] and overwrites
    it in both branches; that first read is kept as [_initial]. *)
Definition handleClick (states : gmap FSCAction FSCState) (item : FSCAction)
  (isRightClick : bool) : M W unit :=
  preventDefault ;;
  let _initial : option FSCState := states !! item in
  newState ← (if isRightClick then mret NOT_REQUIRED
              else s ← read_state states item; mret (getNextState s));
  setStates (λ prev, <[item := newState]> prev) ;;
  optional_call (onChange props) item newState.

Definition getStateColor (state : FSCState) : string :=
  match state with
  | NOT_REQUIRED => "bg-purple-100 text-purple-700"
  | REQUIRED => "bg-purple-200 text-purple-800"
  | CURRENT => "bg-red-200 text-red-800"
  | COMPLETED => "bg-green-200 text-green-800"
  end.

Definition renderMoodlet (states : gmap FSCAction FSCState) (item : FSCAction)
  : option Button :=
  let label :=
    if decide (variant_ = letter) then JS.index0 (action_literal item)
    else Some (action_literal item) in
  state ← states !! item;
  Some {| button_key := item;
          button_label := label;
          button_className :=
            cn [ Some "px-3 py-1 rounded-full font-medium transition-colors";
                 Some "focus:outline-none focus:ring-2 focus:ring-offset-2";
                 Some (getStateColor state);
                 Some (if decide (variant_ = word) then "text-sm"
                       else "text-xs w-8 h-8") ];
          button_title := action_literal item ++ " - "
                            ++ JS.replace "_"%char " " (state_literal state);
          button_disabled := false |}.

Definition onClick (states : gmap FSCAction FSCState) (item : FSCAction)
  : M W unit :=
  handleClick states item false.

Definition onContextMenu (states : gmap FSCAction FSCState) (item : FSCAction)
  : M W unit :=
  handleClick states item true.

Definition render (states : gmap FSCAction FSCState) : option View :=
  f ← renderMoodlet states FUELLING;
  s ← renderMoodlet states SERVICING;
  c ← renderMoodlet states CLEANING;
  Some {| container_className :=
            cn [ Some "flex gap-2 items-center"; className props ];
          buttons := [f; s; c] |}.

Definition mount (w : W) : Runtime W :=
  MkRuntime initial_states 0 w false.

Definition activate (g : Gesture) (item : FSCAction) : M W unit :=
  λ rt,
    let states := states_cell rt in
    let handler :=
      match g with
      | Click => onClick states item
      | ContextMenu => onContextMenu states item
      end in
    handler (MkRuntime (states_cell rt) (setStates_calls rt) (host rt) false).

End FSCMoodlet.

End MoodletV1.

(** ** The demo host (App.tsx) *)
Module App.

(** The host's world is the browser console, one string per line. *)
Definition Console : Type := list string.

(** [console.log(`${item} changed to ${newState}`)] *)
Definition handleStateChange (item : FSCAction) (newState : FSCState)
  (console : Console) : Console :=
  (console ++ [(action_literal item ++ " changed to " ++ state_literal newState)%string])%list.

(** A callback that only records its arguments, to count invocations. *)
Definition record_call (item : FSCAction) (newState : FSCState)
  (calls : list (FSCAction * FSCState)) : list (FSCAction * FSCState) :=
  (calls ++ [(item, newState)])%list.

(** The three instances of the demo page. *)
Definition letter_instance : Moodlet.IFSCMoodletProps Console :=
  Moodlet.MkProps
    (Some (<[CLEANING := Some COMPLETED]> (<[SERVICING := Some CURRENT]>
             (<[FUELLING := Some REQUIRED]> ∅))))
    (Some letter) None (Some handleStateChange) None.

Definition word_instance : Moodlet.IFSCMoodletProps Console :=
  Moodlet.MkProps
    (Some (<[CLEANING := Some CURRENT]> (<[SERVICING := Some REQUIRED]>
             (<[FUELLING := Some NOT_REQUIRED]> ∅))))
    (Some word) None (Some handleStateChange) None.

Definition disabled_instance : Moodlet.IFSCMoodletProps Console :=
  Moodlet.MkProps
    (Some (<[CLEANING := Some REQUIRED]> (<[SERVICING := Some CURRENT]>
             (<[FUELLING := Some COMPLETED]> ∅))))
    (Some letter) None (Some handleStateChange) (Some true).

End App.

(** ** Vocabulary of the statements below *)

(** The value [onChange?.(item, newState)] leaves in the host's world. *)
Definition notified {W} (callback : option (FSCAction → FSCState → W → W))
  (item : FSCAction) (newState : FSCState) (w : W) : W :=
  match callback with
  | Some f => f item newState w
  | None => w
  end.

(** The labels of the specification: the first character of the action
    name, and the name in small letters. *)
Definition first_character (a : FSCAction) : option string :=
  match a with
  | FUELLING => Some "F"
  | SERVICING => Some "S"
  | CLEANING => Some "C"
  end.

Definition lowercased_name (a : FSCAction) : option string :=
  match a with
  | FUELLING => Some "fuelling"
  | SERVICING => Some "servicing"
  | CLEANING => Some "cleaning"
  end.

(** The state a gesture asks for in the first version. *)
Definition V1_requested (g : Gesture) (s : FSCState) : FSCState :=
  match g with
  | Click => MoodletV1.getNextState s
  | ContextMenu => NOT_REQUIRED
  end.

(** Writing a list of (action, state) notifications onto a state map,
    oldest first: what a host does when it mirrors the component from the
    calls of [onChange]. *)
Definition replay (calls : list (FSCAction * FSCState))
  (states : gmap FSCAction FSCState) : gmap FSCAction FSCState :=
  foldl (λ m c, <[c.1 := c.2]> m) states calls.

(** Handing a list of notifications to a callback, oldest first. *)
Definition deliver {W} (f : FSCAction → FSCState → W → W)
  (calls : list (FSCAction * FSCState)) (w : W) : W :=
  foldl (λ w' c, f c.1 c.2 w') w calls.

(** Every occurrence of a character replaced, where [JS.replace] only
    replaces the first. *)
Fixpoint replace_every (pat : ascii) (by_ : string) (s : string) : string :=
  match s with
  | EmptyString => EmptyString
  | String c rest =>
      if Ascii.eqb c pat then by_ ++ replace_every pat by_ rest
      else String c (replace_every pat by_ rest)
  end.

(** Whether a character occurs in a string. *)
Fixpoint occurs (c : ascii) (s : string) : bool :=
  match s with
  | EmptyString => false
  | String c' rest => (Ascii.eqb c' c || occurs c rest)%bool
  end.

(** The console line [handleStateChange] prints for one notification. *)
Definition console_line (c : FSCAction * FSCState) : string :=
  action_literal c.1 ++ " changed to " ++ state_literal c.2.

(** * Properties *)

(** ** Small facts about the helpers *)

Lemma all_actions_complete (a : FSCAction) : a ∈ all_actions.
Proof. unfold all_actions. destruct a; set_solver. Qed.

Lemma well_formed_lookup (states : gmap FSCAction FSCState) (a : FSCAction) :
  well_formed states → is_Some (states !! a).
Proof.
  intros Hwf. apply elem_of_dom. rewrite Hwf. apply all_actions_complete.
Qed.

Lemma well_formed_all (states : gmap FSCAction FSCState) :
  (∀ a, is_Some (states !! a)) → well_formed states.
Proof.
  intros Hall. unfold well_formed. apply set_eq. intros a. split.
  - intros _. apply all_actions_complete.
  - intros _. apply elem_of_dom, Hall.
Qed.

Lemma well_formed_insert (states : gmap FSCAction FSCState) a s :
  well_formed states → well_formed (<[a := s]> states).
Proof.
  unfold well_formed. intros Hwf. rewrite dom_insert_L, Hwf.
  apply subseteq_union_1_L, singleton_subseteq_l, all_actions_complete.
Qed.

Lemma default_states_lookup (a : FSCAction) : default_states !! a = Some REQUIRED.
Proof. destruct a; reflexivity. Qed.

Lemma spread_lookup {V} (base extra : gmap FSCAction V) (a : FSCAction) :
  spread base extra !! a =
    match extra !! a with
    | Some v => Some v
    | None => base !! a
    end.
Proof.
  unfold spread. rewrite lookup_union.
  destruct (extra !! a), (base !! a); reflexivity.
Qed.

Lemma stateFlow_not_NOT_REQUIRED (s : FSCState) : stateFlow s ≠ NOT_REQUIRED.
Proof. destruct s; discriminate. Qed.

Lemma getNextState_stateFlow (s : FSCState) : Moodlet.getNextState s = stateFlow s.
Proof. destruct s; reflexivity. Qed.

(** ** What one gesture does, as an equation on the instance *)
Section Activation.

Context {W : Type} (props : Moodlet.IFSCMoodletProps W).

Lemma activate_disabled g item (rt : Runtime W) :
  Moodlet.disabled_ props = true →
  Moodlet.activate props g item rt =
    Some (tt, MkRuntime (states_cell rt) (setStates_calls rt) (host rt)
                match g with
                | Click => false
                | ContextMenu => true
                end).
Proof.
  intros Hd. destruct g;
    unfold Moodlet.activate, Moodlet.onClick, Moodlet.onContextMenu,
      Moodlet.handleClick, mbind, M_bind, preventDefault; simpl;
    rewrite Hd; reflexivity.
Qed.

Lemma activate_Click item s (rt : Runtime W) :
  Moodlet.disabled_ props = false →
  states_cell rt !! item = Some s →
  Moodlet.activate props Click item rt =
    Some (tt, MkRuntime (<[item := Moodlet.getNextState s]> (states_cell rt))
                        (S (setStates_calls rt))
                        (notified (Moodlet.onChange props) item
                           (Moodlet.getNextState s) (host rt))
                        true).
Proof.
  intros Hd Hs.
  unfold Moodlet.activate, Moodlet.onClick, Moodlet.handleClick, mbind, M_bind,
    preventDefault, read_state, setStates, optional_call, notified, mret, M_ret.
  simpl. rewrite Hd, Hs. simpl.
  destruct (Moodlet.onChange props); reflexivity.
Qed.

Lemma activate_ContextMenu item (rt : Runtime W) :
  Moodlet.disabled_ props = false →
  Moodlet.activate props ContextMenu item rt =
    Some (tt, MkRuntime (<[item := NOT_REQUIRED]> (states_cell rt))
                        (S (setStates_calls rt))
                        (notified (Moodlet.onChange props) item NOT_REQUIRED
                           (host rt))
                        true).
Proof.
  intros Hd.
  unfold Moodlet.activate, Moodlet.onContextMenu, Moodlet.handleClick, mbind,
    M_bind, preventDefault, setStates, optional_call, notified, mret, M_ret.
  simpl. rewrite Hd. simpl.
  destruct (Moodlet.onChange props); reflexivity.
Qed.

(** A gesture never gets stuck on a well-formed map, and leaves the map
    well-formed. *)
Lemma handleClick_total g item (rt : Runtime W) :
  well_formed (states_cell rt) →
  ∃ rt', Moodlet.activate props g item rt = Some (tt, rt')
         ∧ well_formed (states_cell rt').
Proof.
  intros Hwf. destruct (Moodlet.disabled_ props) eqn:Hd.
  - eexists. split; [by apply activate_disabled|]. exact Hwf.
  - destruct g.
    + destruct (well_formed_lookup _ item Hwf) as [s Hs].
      eexists. split; [by apply activate_Click|].
      by apply well_formed_insert.
    + eexists. split; [by apply activate_ContextMenu|].
      by apply well_formed_insert.
Qed.

Lemma activate_all_total gs (rt : Runtime W) :
  well_formed (states_cell rt) →
  ∃ rt', Moodlet.activate_all props gs rt = Some (tt, rt')
         ∧ well_formed (states_cell rt').
Proof.
  revert rt. induction gs as [|[g item] gs IH]; intros rt Hwf.
  - exists rt. split; [reflexivity | exact Hwf].
  - destruct (handleClick_total g item rt Hwf) as (rt1 & H1 & Hwf1).
    destruct (IH rt1 Hwf1) as (rt2 & H2 & Hwf2).
    exists rt2. split; [|exact Hwf2].
    simpl. unfold mbind, M_bind. rewrite H1. exact H2.
Qed.

End Activation.

(** ** The transition function *)

(** C1. In both versions of the component, [getNextState] is the
    four-row table: NOT_REQUIRED goes to REQUIRED, REQUIRED to CURRENT,
    CURRENT to COMPLETED and COMPLETED back to CURRENT; the table is the
    graph of the function over the four states, so every state has its
    row and no row says anything else. *)
Theorem getNextState_is_table :
  (Moodlet.getNextState NOT_REQUIRED = REQUIRED
   ∧ Moodlet.getNextState REQUIRED = CURRENT
   ∧ Moodlet.getNextState CURRENT = COMPLETED
   ∧ Moodlet.getNextState COMPLETED = CURRENT)
  ∧ (MoodletV1.getNextState NOT_REQUIRED = REQUIRED
     ∧ MoodletV1.getNextState REQUIRED = CURRENT
     ∧ MoodletV1.getNextState CURRENT = COMPLETED
     ∧ MoodletV1.getNextState COMPLETED = CURRENT)
  ∧ next_table
      = (λ s, (s, Moodlet.getNextState s))
          <$> [NOT_REQUIRED; REQUIRED; CURRENT; COMPLETED]
  ∧ next_table
      = (λ s, (s, MoodletV1.getNextState s))
          <$> [NOT_REQUIRED; REQUIRED; CURRENT; COMPLETED]
  ∧ ∀ s : FSCState,
      (s, Moodlet.getNextState s) ∈ next_table
      ∧ (s, MoodletV1.getNextState s) ∈ next_table.
Proof.
  split; [repeat split|]. split; [repeat split|].
  split; [reflexivity|]. split; [reflexivity|].
  intros s. rewrite !list_elem_of_In.
  destruct s; simpl; tauto.
Qed.

(** ** Primary and secondary activation on the current component *)

(** C2. With [disabled] false, one click on the button of [A], whose
    state is [s], ends with the entry of [A] at the state the table gives
    for [s] (REQUIRED after NOT_REQUIRED, CURRENT after REQUIRED,
    COMPLETED after CURRENT, CURRENT after COMPLETED), the entries of the
    other two actions as they were, the key set still the three actions,
    one call of [setStates], and the host's world equal to what one call
    of [onChange] with [A] and that state makes of it (or untouched when
    no callback was given). *)
Theorem primary_activation {W : Type} (props : Moodlet.IFSCMoodletProps W)
  (A : FSCAction) (s : FSCState) (rt : Runtime W) :
  Moodlet.disabled_ props = false →
  well_formed (states_cell rt) →
  states_cell rt !! A = Some s →
  ∃ rt' next,
    Moodlet.activate props Click A rt = Some (tt, rt')
    ∧ next = match s with
             | NOT_REQUIRED => REQUIRED
             | REQUIRED => CURRENT
             | CURRENT => COMPLETED
             | COMPLETED => CURRENT
             end
    ∧ (s, next) ∈ next_table
    ∧ states_cell rt' !! A = Some next
    ∧ (∀ B, B ≠ A → states_cell rt' !! B = states_cell rt !! B)
    ∧ dom (states_cell rt') = all_actions
    ∧ setStates_calls rt' = S (setStates_calls rt)
    ∧ (∀ f, Moodlet.onChange props = Some f →
            host rt' = f A next (host rt))
    ∧ (Moodlet.onChange props = None → host rt' = host rt).
Proof.
  intros Hd Hwf Hs. eexists. exists (Moodlet.getNextState s).
  split; [by apply activate_Click|]. simpl.
  split; [by destruct s|].
  split; [rewrite list_elem_of_In; destruct s; simpl; tauto|].
  split; [apply lookup_insert_eq|].
  split; [intros B HB; by apply lookup_insert_ne|].
  split; [by apply well_formed_insert|].
  split; [reflexivity|].
  split; [intros f Hf|intros Hf]; by rewrite Hf.
Qed.

Lemma primary_activation_witness :
  let props : Moodlet.IFSCMoodletProps (list (FSCAction * FSCState)) :=
    Moodlet.MkProps (Some {[SERVICING := Some CURRENT]}) (Some letter) None
      (Some App.record_call) None in
  let rt := Moodlet.mount props [] in
  Moodlet.disabled_ props = false
  ∧ well_formed (states_cell rt)
  ∧ states_cell rt !! FUELLING = Some REQUIRED
  ∧ ∃ rt' next,
      Moodlet.activate props Click FUELLING rt = Some (tt, rt')
      ∧ next = CURRENT
      ∧ (REQUIRED, next) ∈ next_table
      ∧ states_cell rt' !! FUELLING = Some next
      ∧ (∀ B, B ≠ FUELLING → states_cell rt' !! B = states_cell rt !! B)
      ∧ dom (states_cell rt') = all_actions
      ∧ setStates_calls rt' = S (setStates_calls rt)
      ∧ (∀ f, Moodlet.onChange props = Some f →
              host rt' = f FUELLING next (host rt))
      ∧ (Moodlet.onChange props = None → host rt' = host rt).
Proof.
  intros props rt.
  assert (Hd : Moodlet.disabled_ props = false) by reflexivity.
  assert (Hwf : well_formed (states_cell rt)) by reflexivity.
  assert (Hs : states_cell rt !! FUELLING = Some REQUIRED) by reflexivity.
  split; [exact Hd|]. split; [exact Hwf|]. split; [exact Hs|].
  exact (primary_activation props FUELLING REQUIRED rt Hd Hwf Hs).
Defined.

(** The scenario of the specification: starting from
    [initialStates = { SERVICING: 'CURRENT' }], one click on FUELLING gives
    FUELLING and SERVICING at CURRENT, CLEANING at REQUIRED, and the
    callback has been called once, with (FUELLING, CURRENT). *)
Example scenario_click_fuelling :
  let props : Moodlet.IFSCMoodletProps (list (FSCAction * FSCState)) :=
    Moodlet.MkProps (Some {[SERVICING := Some CURRENT]}) (Some letter) None
      (Some App.record_call) None in
  ∃ rt', Moodlet.activate props Click FUELLING (Moodlet.mount props [])
           = Some (tt, rt')
    ∧ states_cell rt' =
        <[CLEANING := REQUIRED]> (<[SERVICING := CURRENT]>
          (<[FUELLING := CURRENT]> ∅))
    ∧ host rt' = [(FUELLING, CURRENT)].
Proof.
  intros props. eexists. split; [reflexivity|]. split; [|reflexivity].
  apply map_eq. intros []; reflexivity.
Qed.

(** C3. With [disabled] false, one right-click on the button of [A],
    whatever its state [s], ends with the entry of [A] at NOT_REQUIRED and
    the host's world equal to what one call [onChange(A, NOT_REQUIRED)]
    makes of it (or untouched when no callback was given). *)
Theorem secondary_activation {W : Type} (props : Moodlet.IFSCMoodletProps W)
  (A : FSCAction) (s : FSCState) (rt : Runtime W) :
  Moodlet.disabled_ props = false →
  states_cell rt !! A = Some s →
  ∃ rt', Moodlet.activate props ContextMenu A rt = Some (tt, rt')
    ∧ states_cell rt' !! A = Some NOT_REQUIRED
    ∧ (∀ B, B ≠ A → states_cell rt' !! B = states_cell rt !! B)
    ∧ (∀ f, Moodlet.onChange props = Some f →
            host rt' = f A NOT_REQUIRED (host rt))
    ∧ (Moodlet.onChange props = None → host rt' = host rt).
Proof.
  intros Hd _. eexists. split; [by apply activate_ContextMenu|]. simpl.
  split; [apply lookup_insert_eq|].
  split; [intros B HB; by apply lookup_insert_ne|].
  split; [intros f Hf|intros Hf]; by rewrite Hf.
Qed.

Lemma secondary_activation_witness :
  let props := App.word_instance in
  let rt := Moodlet.mount props [] in
  Moodlet.disabled_ props = false
  ∧ states_cell rt !! CLEANING = Some CURRENT
  ∧ ∃ rt', Moodlet.activate props ContextMenu CLEANING rt = Some (tt, rt')
      ∧ states_cell rt' !! CLEANING = Some NOT_REQUIRED
      ∧ (∀ B, B ≠ CLEANING → states_cell rt' !! B = states_cell rt !! B)
      ∧ (∀ f, Moodlet.onChange props = Some f →
              host rt' = f CLEANING NOT_REQUIRED (host rt))
      ∧ (Moodlet.onChange props = None → host rt' = host rt).
Proof.
  intros props rt.
  assert (Hd : Moodlet.disabled_ props = false) by reflexivity.
  assert (Hs : states_cell rt !! CLEANING = Some CURRENT) by reflexivity.
  split; [exact Hd|]. split; [exact Hs|].
  exact (secondary_activation props CLEANING CURRENT rt Hd Hs).
Defined.

(** On the demo page, a right-click on "cleaning" in the word instance
    prints one console line. *)
Example scenario_reset_cleaning :
  ∃ rt', Moodlet.activate App.word_instance ContextMenu CLEANING
           (Moodlet.mount App.word_instance []) = Some (tt, rt')
    ∧ host rt' = ["CLEANING changed to NOT_REQUIRED"].
Proof. eexists. split; reflexivity. Qed.

(** ** The disabled mode *)




(** ** Construction *)

Lemma initial_states_lookup {W : Type} (props : Moodlet.IFSCMoodletProps W)
  (a : FSCAction) :
  Moodlet.initial_states props !! a
    = match Moodlet.initialStates_ props !! a with
      | Some supplied => supplied
      | None => Some REQUIRED
      end.
Proof.
  unfold Moodlet.initial_states, defined_entries.
  rewrite lookup_omap, spread_lookup, lookup_fmap, default_states_lookup.
  by destruct (Moodlet.initialStates_ props !! a) as [[?|]|].
Qed.

Lemma initial_states_well_formed_iff {W : Type}
  (props : Moodlet.IFSCMoodletProps W) :
  well_formed (Moodlet.initial_states props)
  ↔ ∀ a, Moodlet.initialStates_ props !! a ≠ Some None.
Proof.
  split.
  - intros Hwf a Hundefined.
    destruct (well_formed_lookup _ a Hwf) as [s Hs].
    rewrite initial_states_lookup, Hundefined in Hs. discriminate.
  - intros Hdefined. apply well_formed_all. intros a.
    rewrite initial_states_lookup. specialize (Hdefined a).
    destruct (Moodlet.initialStates_ props !! a) as [[s|]|];
      [by exists s | by destruct Hdefined | by exists REQUIRED].
Qed.

(** C5. Without [initialStates] (and likewise with the empty object) the
    component starts with all three actions at REQUIRED. For any partial
    [initialStates], an action whose key is present starts at the value
    supplied for it, and an action whose key is absent starts at REQUIRED.
    The supplied value may be [undefined], which the type of the prop
    allows: the action then starts without a state, and all three actions
    have a state from the start exactly when no supplied value is
    [undefined]. *)
Theorem initial_states_default {W : Type} (v : option Variant)
  (cls : option string) (cb : option (FSCAction → FSCState → W → W))
  (d : option bool) :
  Moodlet.initial_states (Moodlet.MkProps None v cls cb d)
    = <[CLEANING := REQUIRED]> (<[SERVICING := REQUIRED]>
        (<[FUELLING := REQUIRED]> ∅))
  ∧ Moodlet.initial_states (Moodlet.MkProps (Some ∅) v cls cb d)
      = <[CLEANING := REQUIRED]> (<[SERVICING := REQUIRED]>
          (<[FUELLING := REQUIRED]> ∅))
  ∧ ∀ (partial : gmap FSCAction (option FSCState)) (a : FSCAction),
      let props := Moodlet.MkProps (Some partial) v cls cb d in
      Moodlet.initial_states props !! a
        = match partial !! a with
          | Some supplied => supplied
          | None => Some REQUIRED
          end
      ∧ (well_formed (Moodlet.initial_states props)
         ↔ ∀ b, partial !! b ≠ Some None)
      ∧ ∀ w, states_cell (Moodlet.mount props w) = Moodlet.initial_states props.
Proof.
  split; [|split].
  - apply map_eq. intros a. rewrite initial_states_lookup.
    unfold Moodlet.initialStates_. simpl. rewrite lookup_empty.
    by destruct a.
  - apply map_eq. intros a. rewrite initial_states_lookup.
    unfold Moodlet.initialStates_. simpl. rewrite lookup_empty.
    by destruct a.
  - intros partial a props. split; [|split].
    + apply initial_states_lookup.
    + apply (initial_states_well_formed_iff props).
    + reflexivity.
Qed.

(** An [initialStates] that holds [undefined] for FUELLING: the action
    starts without a state, the other two at REQUIRED, and the first
    render fails. *)
Example scenario_undefined_initial_state :
  let props : Moodlet.IFSCMoodletProps unit :=
    Moodlet.MkProps (Some {[FUELLING := None]}) None None None None in
  Moodlet.initial_states props !! FUELLING = None
  ∧ Moodlet.initial_states props !! SERVICING = Some REQUIRED
  ∧ Moodlet.initial_states props !! CLEANING = Some REQUIRED
  ∧ Moodlet.render props (states_cell (Moodlet.mount props tt)) = None.
Proof. repeat split. Qed.

(** ** The label of a button *)

Lemma index0_action_literal (a : FSCAction) :
  JS.index0 (action_literal a) = first_character a.
Proof. destruct a; reflexivity. Qed.

Lemma toLowerCase_action_literal (a : FSCAction) :
  Some (JS.toLowerCase (action_literal a)) = lowercased_name a.
Proof. destruct a; reflexivity. Qed.

(** C6, as the code has it. On a well-formed map both versions render the
    button of every action. In the current version the label is the first
    character of the action name for the letter variant and the
    lower-cased name for the word variant. In the first version the letter
    variant is the same, and the word variant shows the action name as it
    is written, in capitals. *)
Theorem button_label_by_variant {W : Type}
  (props : Moodlet.IFSCMoodletProps W) (props1 : MoodletV1.FSCMoodletProps W)
  (cn : list (option string) → string)
  (states : gmap FSCAction FSCState) (item : FSCAction) :
  well_formed states →
  ∃ b b1,
    Moodlet.renderMoodlet props states item = Some b
    ∧ MoodletV1.renderMoodlet props1 cn states item = Some b1
    ∧ button_label b =
        match Moodlet.variant_ props with
        | letter => first_character item
        | word => lowercased_name item
        end
    ∧ button_label b1 =
        match MoodletV1.variant_ props1 with
        | letter => first_character item
        | word => Some (action_literal item)
        end.
Proof.
  intros Hwf. destruct (well_formed_lookup _ item Hwf) as [s Hs].
  unfold Moodlet.renderMoodlet, MoodletV1.renderMoodlet. rewrite Hs. simpl.
  eexists. eexists. split; [reflexivity|]. split; [reflexivity|]. simpl.
  split.
  - destruct (Moodlet.variant_ props); simpl.
    + apply index0_action_literal.
    + apply toLowerCase_action_literal.
  - destruct (MoodletV1.variant_ props1); simpl.
    + apply index0_action_literal.
    + reflexivity.
Qed.

Lemma button_label_by_variant_witness :
  let props : Moodlet.IFSCMoodletProps unit :=
    Moodlet.MkProps None (Some word) None None None in
  let props1 : MoodletV1.FSCMoodletProps unit :=
    MoodletV1.MkProps None (Some word) None None in
  well_formed default_states
  ∧ ∃ b b1,
      Moodlet.renderMoodlet props default_states SERVICING = Some b
      ∧ MoodletV1.renderMoodlet props1 joinClassNames default_states SERVICING
          = Some b1
      ∧ button_label b =
          match Moodlet.variant_ props with
          | letter => first_character SERVICING
          | word => lowercased_name SERVICING
          end
      ∧ button_label b1 =
          match MoodletV1.variant_ props1 with
          | letter => first_character SERVICING
          | word => Some (action_literal SERVICING)
          end.
Proof.
  intros props props1.
  assert (Hwf : well_formed default_states) by reflexivity.
  split; [exact Hwf|].
  exact (button_label_by_variant props props1 joinClassNames default_states
           SERVICING Hwf).
Defined.

(** C6, as stated, fails on the first version: with the word variant its
    FUELLING button reads "FUELLING", which is not the lower-cased name. *)
Lemma word_label_V1_in_capitals :
  let props1 : MoodletV1.FSCMoodletProps unit :=
    MoodletV1.MkProps None (Some word) None None in
  button_label
    <$> MoodletV1.renderMoodlet props1 joinClassNames
          (MoodletV1.initial_states props1) FUELLING
    = Some (Some "FUELLING")
  ∧ button_label
      <$> MoodletV1.renderMoodlet props1 joinClassNames
            (MoodletV1.initial_states props1) FUELLING
      ≠ Some (lowercased_name FUELLING).
Proof. intros props1. split; [reflexivity | discriminate]. Qed.

(** ** [joinClassNames] *)

Lemma filter_Boolean_present (classes : list (option string)) :
  List.filter JS.Boolean classes = Some <$> present_tokens classes.
Proof.
  induction classes as [|c classes IH]; [reflexivity|].
  unfold present_tokens in *. simpl.
  destruct c as [[|ch s]|]; simpl; by rewrite ?IH.
Qed.

Lemma join_defined (sep : string) (tokens : list string) :
  JS.join sep (Some <$> tokens) = String.concat sep tokens.
Proof.
  induction tokens as [|t tokens IH]; [reflexivity|].
  destruct tokens as [|t' tokens]; [reflexivity|].
  change (JS.join sep (Some <$> t :: t' :: tokens))
    with (t ++ sep ++ JS.join sep (Some <$> t' :: tokens)).
  by rewrite IH.
Qed.

Lemma present_tokens_spec (classes : list (option string)) (s : string) :
  s ∈ present_tokens classes ↔ Some s ∈ classes ∧ s ≠ "".
Proof.
  unfold present_tokens. rewrite list_elem_of_omap. split.
  - intros ([t|] & Hin & Hp); simpl in Hp; [|discriminate].
    case_decide; [discriminate|]. by simplify_eq.
  - intros [Hin Hne]. exists (Some s). split; [exact Hin|].
    simpl. by case_decide.
Qed.

(** C7. For every sequence of optional tokens, [joinClassNames] returns
    the tokens that are defined and not empty, in their order, with one
    space between neighbours; ['a', undefined, 'b'] gives "a b" and the
    empty sequence gives the empty string. *)
Theorem joinClassNames_present (classes : list (option string)) :
  joinClassNames classes = String.concat " " (present_tokens classes)
  ∧ joinClassNames [Some "a"; None; Some "b"] = "a b"
  ∧ joinClassNames [] = "".
Proof.
  split; [|split; reflexivity].
  unfold joinClassNames. rewrite filter_Boolean_present. apply join_defined.
Qed.

(** ** Reaching NOT_REQUIRED *)

Lemma activate_Click_stuck {W : Type} (props : Moodlet.IFSCMoodletProps W)
  (item : FSCAction) (rt : Runtime W) :
  Moodlet.disabled_ props = false →
  states_cell rt !! item = None →
  Moodlet.activate props Click item rt = None.
Proof.
  intros Hd Hs.
  unfold Moodlet.activate, Moodlet.onClick, Moodlet.handleClick, mbind, M_bind,
    preventDefault, read_state.
  simpl. by rewrite Hd, Hs.
Qed.

(** C8. [getNextState] never returns NOT_REQUIRED. Hence, at any point of
    any sequence of gestures, a gesture after which an action is at
    NOT_REQUIRED although it was not before is a right-click on that very
    action (on a component that is not disabled). *)
Theorem NOT_REQUIRED_only_by_reset {W : Type}
  (props : Moodlet.IFSCMoodletProps W)
  (before : list (Gesture * FSCAction)) (g : Gesture) (item a : FSCAction)
  (rt0 rt rt' : Runtime W) :
  Moodlet.activate_all props before rt0 = Some (tt, rt) →
  Moodlet.activate props g item rt = Some (tt, rt') →
  states_cell rt !! a ≠ Some NOT_REQUIRED →
  states_cell rt' !! a = Some NOT_REQUIRED →
  (∀ s, Moodlet.getNextState s ≠ NOT_REQUIRED)
  ∧ g = ContextMenu ∧ item = a ∧ Moodlet.disabled_ props = false.
Proof.
  intros _ Hstep Hbefore Hafter.
  split; [intros s; rewrite getNextState_stateFlow;
          apply stateFlow_not_NOT_REQUIRED|].
  destruct (Moodlet.disabled_ props) eqn:Hd.
  { rewrite (activate_disabled props g item rt Hd) in Hstep.
    injection Hstep as <-. simpl in Hafter. contradiction. }
  destruct g.
  - destruct (states_cell rt !! item) as [s|] eqn:Hs.
    + rewrite (activate_Click props item s rt Hd Hs) in Hstep.
      injection Hstep as <-. simpl in Hafter.
      destruct (decide (item = a)) as [->|Hne].
      * rewrite lookup_insert_eq in Hafter. injection Hafter as Hnext.
        exfalso. revert Hnext. rewrite getNextState_stateFlow.
        apply stateFlow_not_NOT_REQUIRED.
      * rewrite lookup_insert_ne in Hafter by done. contradiction.
    + rewrite (activate_Click_stuck props item rt Hd Hs) in Hstep.
      discriminate.
  - rewrite (activate_ContextMenu props item rt Hd) in Hstep.
    injection Hstep as <-. simpl in Hafter.
    destruct (decide (item = a)) as [->|Hne]; [done|].
    rewrite lookup_insert_ne in Hafter by done. contradiction.
Qed.

Lemma NOT_REQUIRED_only_by_reset_witness :
  let props := App.letter_instance in
  let rt0 := Moodlet.mount props [] in
  let before := [(Click, FUELLING); (Click, CLEANING)] in
  let rt := MkRuntime
              (<[CLEANING := CURRENT]> (<[FUELLING := CURRENT]>
                 (states_cell rt0)))
              2
              ["FUELLING changed to CURRENT"; "CLEANING changed to CURRENT"]
              true in
  let rt' := MkRuntime
               (<[SERVICING := NOT_REQUIRED]> (states_cell rt))
               3
               (host rt ++ ["SERVICING changed to NOT_REQUIRED"])%list
               true in
  Moodlet.activate_all props before rt0 = Some (tt, rt)
  ∧ Moodlet.activate props ContextMenu SERVICING rt = Some (tt, rt')
  ∧ states_cell rt !! SERVICING ≠ Some NOT_REQUIRED
  ∧ states_cell rt' !! SERVICING = Some NOT_REQUIRED
  ∧ (∀ s, Moodlet.getNextState s ≠ NOT_REQUIRED)
  ∧ ContextMenu = ContextMenu ∧ SERVICING = SERVICING
  ∧ Moodlet.disabled_ props = false.
Proof.
  intros props rt0 before rt rt'.
  assert (H1 : Moodlet.activate_all props before rt0 = Some (tt, rt))
    by reflexivity.
  assert (H2 : Moodlet.activate props ContextMenu SERVICING rt = Some (tt, rt'))
    by reflexivity.
  assert (H3 : states_cell rt !! SERVICING ≠ Some NOT_REQUIRED)
    by discriminate.
  assert (H4 : states_cell rt' !! SERVICING = Some NOT_REQUIRED)
    by reflexivity.
  split; [exact H1|]. split; [exact H2|]. split; [exact H3|].
  split; [exact H4|].
  exact (NOT_REQUIRED_only_by_reset props before ContextMenu SERVICING
           SERVICING rt0 rt rt' H1 H2 H3 H4).
Defined.

(** ** Repeated clicks *)

Lemma iterate_from_REQUIRED (n : nat) :
  Nat.iter (S n) Moodlet.getNextState REQUIRED
    = if Nat.even n then CURRENT else COMPLETED.
Proof.
  induction n as [|n IH]; [reflexivity|].
  rewrite Nat.iter_succ, IH, Nat.even_succ, <- Nat.negb_even.
  by destruct (Nat.even n).
Qed.

Lemma activate_all_clicks {W : Type} (props : Moodlet.IFSCMoodletProps W)
  (A : FSCAction) (n : nat) :
  Moodlet.disabled_ props = false →
  ∀ (s : FSCState) (rt : Runtime W),
    states_cell rt !! A = Some s →
    ∃ rt', Moodlet.activate_all props (replicate n (Click, A)) rt
             = Some (tt, rt')
      ∧ states_cell rt' !! A = Some (Nat.iter n Moodlet.getNextState s).
Proof.
  intros Hd. induction n as [|n IH]; intros s rt Hs.
  - exists rt. by split.
  - pose proof (activate_Click props A s rt Hd Hs) as Hstep.
    set (rt1 := MkRuntime (<[A := Moodlet.getNextState s]> (states_cell rt))
                  (S (setStates_calls rt))
                  (notified (Moodlet.onChange props) A
                     (Moodlet.getNextState s) (host rt))
                  true) in Hstep.
    destruct (IH (Moodlet.getNextState s) rt1) as (rt' & Hrun & Hcell).
    { apply lookup_insert_eq. }
    exists rt'. split.
    + simpl. unfold mbind, M_bind. rewrite Hstep. exact Hrun.
    + by rewrite Nat.iter_succ_r.
Qed.

(** C9. From REQUIRED, the n-th iterate of [getNextState] (n at least 1)
    is CURRENT for odd n and COMPLETED for even n; COMPLETED goes to
    CURRENT and nowhere else; and n clicks on a button at REQUIRED leave it
    at that n-th iterate. *)
Theorem primary_cycle_from_REQUIRED (n : nat) :
  (1 ≤ n)%nat →
  Nat.iter n Moodlet.getNextState REQUIRED
    = (if Nat.odd n then CURRENT else COMPLETED)
  ∧ Moodlet.getNextState COMPLETED = CURRENT
  ∧ ∀ (W : Type) (props : Moodlet.IFSCMoodletProps W) (A : FSCAction)
      (rt : Runtime W),
      Moodlet.disabled_ props = false →
      states_cell rt !! A = Some REQUIRED →
      ∃ rt', Moodlet.activate_all props (replicate n (Click, A)) rt
               = Some (tt, rt')
        ∧ states_cell rt' !! A
            = Some (if Nat.odd n then CURRENT else COMPLETED).
Proof.
  intros Hn. destruct n as [|n]; [lia|].
  assert (Hiter : Nat.iter (S n) Moodlet.getNextState REQUIRED
                  = if Nat.odd (S n) then CURRENT else COMPLETED).
  { rewrite iterate_from_REQUIRED. by rewrite Nat.odd_succ. }
  split; [exact Hiter|]. split; [reflexivity|].
  intros W props A rt Hd Hs. rewrite <- Hiter.
  by apply activate_all_clicks.
Qed.

Lemma primary_cycle_from_REQUIRED_witness :
  (1 ≤ 5)%nat
  ∧ Nat.iter 5 Moodlet.getNextState REQUIRED
      = (if Nat.odd 5 then CURRENT else COMPLETED)
  ∧ Moodlet.getNextState COMPLETED = CURRENT
  ∧ ∀ (W : Type) (props : Moodlet.IFSCMoodletProps W) (A : FSCAction)
      (rt : Runtime W),
      Moodlet.disabled_ props = false →
      states_cell rt !! A = Some REQUIRED →
      ∃ rt', Moodlet.activate_all props (replicate 5 (Click, A)) rt
               = Some (tt, rt')
        ∧ states_cell rt' !! A
            = Some (if Nat.odd 5 then CURRENT else COMPLETED).
Proof.
  assert (H : (1 ≤ 5)%nat) by lia.
  split; [exact H|]. exact (primary_cycle_from_REQUIRED 5 H).
Defined.

(** Five clicks on FUELLING in the letter instance of the demo page. *)
Example scenario_five_clicks :
  (λ r, (states_cell r.2 !! FUELLING, setStates_calls r.2, host r.2))
    <$> Moodlet.activate_all App.letter_instance
          (replicate 5 (Click, FUELLING))
          (Moodlet.mount App.letter_instance [])
  = Some (Some CURRENT, 5%nat,
          [ "FUELLING changed to CURRENT";
            "FUELLING changed to COMPLETED";
            "FUELLING changed to CURRENT";
            "FUELLING changed to COMPLETED";
            "FUELLING changed to CURRENT" ]).
Proof. vm_compute. reflexivity. Qed.

(** ** The first version: no suppression path *)

Lemma V1_activate_Click {W : Type} (props : MoodletV1.FSCMoodletProps W)
  (item : FSCAction) (s : FSCState) (rt : Runtime W) :
  states_cell rt !! item = Some s →
  MoodletV1.activate props Click item rt =
    Some (tt, MkRuntime (<[item := MoodletV1.getNextState s]> (states_cell rt))
                        (S (setStates_calls rt))
                        (notified (MoodletV1.onChange props) item
                           (MoodletV1.getNextState s) (host rt))
                        true).
Proof.
  intros Hs.
  unfold MoodletV1.activate, MoodletV1.onClick, MoodletV1.handleClick, mbind,
    M_bind, preventDefault, read_state, setStates, optional_call, notified,
    mret, M_ret.
  simpl. rewrite Hs. simpl.
  destruct (MoodletV1.onChange props); reflexivity.
Qed.

Lemma V1_activate_ContextMenu {W : Type} (props : MoodletV1.FSCMoodletProps W)
  (item : FSCAction) (rt : Runtime W) :
  MoodletV1.activate props ContextMenu item rt =
    Some (tt, MkRuntime (<[item := NOT_REQUIRED]> (states_cell rt))
                        (S (setStates_calls rt))
                        (notified (MoodletV1.onChange props) item NOT_REQUIRED
                           (host rt))
                        true).
Proof.
  unfold MoodletV1.activate, MoodletV1.onContextMenu, MoodletV1.handleClick,
    mbind, M_bind, preventDefault, setStates, optional_call, notified, mret,
    M_ret.
  simpl. destruct (MoodletV1.onChange props); reflexivity.
Qed.

(** C10. In the first version, whatever the props, every click and every
    right-click on a button whose action has a state writes the requested
    state into the entry of that action, calls [setStates] once, and hands
    the action and the new state to [onChange] when that callback is
    given. No value of the props suppresses this; and a click always
    changes the entry, since no state is its own successor. *)
Theorem V1_activation_never_suppressed {W : Type}
  (props : MoodletV1.FSCMoodletProps W) (g : Gesture) (item : FSCAction)
  (s : FSCState) (rt : Runtime W) :
  states_cell rt !! item = Some s →
  ∃ rt', MoodletV1.activate props g item rt = Some (tt, rt')
    ∧ states_cell rt' = <[item := V1_requested g s]> (states_cell rt)
    ∧ states_cell rt' !! item = Some (V1_requested g s)
    ∧ setStates_calls rt' = S (setStates_calls rt)
    ∧ host rt' =
        match MoodletV1.onChange props with
        | Some f => f item (V1_requested g s) (host rt)
        | None => host rt
        end
    ∧ MoodletV1.getNextState s ≠ s.
Proof.
  intros Hs. destruct g.
  - eexists. split; [by apply V1_activate_Click|]. simpl.
    split; [reflexivity|]. split; [apply lookup_insert_eq|].
    split; [reflexivity|]. split; [reflexivity|]. by destruct s.
  - eexists. split; [by apply V1_activate_ContextMenu|]. simpl.
    split; [reflexivity|]. split; [apply lookup_insert_eq|].
    split; [reflexivity|]. split; [reflexivity|]. by destruct s.
Qed.

Lemma V1_activation_never_suppressed_witness :
  let props : MoodletV1.FSCMoodletProps App.Console :=
    MoodletV1.MkProps
      (Some (<[CLEANING := COMPLETED]> (<[SERVICING := CURRENT]>
               (<[FUELLING := REQUIRED]> ∅))))
      None None (Some App.handleStateChange) in
  let rt := MoodletV1.mount props [] in
  states_cell rt !! CLEANING = Some COMPLETED
  ∧ ∃ rt', MoodletV1.activate props Click CLEANING rt = Some (tt, rt')
      ∧ states_cell rt' = <[CLEANING := V1_requested Click COMPLETED]> (states_cell rt)
      ∧ states_cell rt' !! CLEANING = Some (V1_requested Click COMPLETED)
      ∧ setStates_calls rt' = S (setStates_calls rt)
      ∧ host rt' =
          match MoodletV1.onChange props with
          | Some f => f CLEANING (V1_requested Click COMPLETED) (host rt)
          | None => host rt
          end
      ∧ MoodletV1.getNextState COMPLETED ≠ COMPLETED.
Proof.
  intros props rt.
  assert (Hs : states_cell rt !! CLEANING = Some COMPLETED) by reflexivity.
  split; [exact Hs|].
  exact (V1_activation_never_suppressed props Click CLEANING COMPLETED rt Hs).
Defined.

(** The demo page of the first version (App.tsx): a click on "C" prints
    one console line. *)
Example scenario_V1_click_cleaning :
  (λ r, (states_cell r.2 !! CLEANING, setStates_calls r.2, host r.2))
    <$> MoodletV1.activate
          (MoodletV1.MkProps
             (Some (<[CLEANING := COMPLETED]> (<[SERVICING := CURRENT]>
                      (<[FUELLING := REQUIRED]> ∅))))
             None None (Some App.handleStateChange))
          Click CLEANING
          (MkRuntime
             (<[CLEANING := COMPLETED]> (<[SERVICING := CURRENT]>
                (<[FUELLING := REQUIRED]> ∅)))
             0 [] false)
  = Some (Some CURRENT, 1%nat, ["CLEANING changed to CURRENT"]).
Proof. vm_compute. reflexivity. Qed.

(** * Further properties of the code *)

(** ** Rendering *)

Lemma renderMoodlet_lookup {W : Type} (props : Moodlet.IFSCMoodletProps W)
  (states : gmap FSCAction FSCState) (item : FSCAction) :
  is_Some (Moodlet.renderMoodlet props states item) ↔ is_Some (states !! item).
Proof.
  unfold Moodlet.renderMoodlet. destruct (states !! item); simpl.
  - split; intros _; by eexists.
  - split; intros [? ?]; discriminate.
Qed.

Lemma render_is_Some_iff {W : Type} (props : Moodlet.IFSCMoodletProps W)
  (states : gmap FSCAction FSCState) :
  is_Some (Moodlet.render props states) ↔ well_formed states.
Proof.
  split.
  - intros Hrender. apply well_formed_all. intros a.
    apply (renderMoodlet_lookup props). unfold Moodlet.render in Hrender.
    destruct (Moodlet.renderMoodlet props states FUELLING) eqn:Hf;
      [|destruct Hrender; discriminate].
    destruct (Moodlet.renderMoodlet props states SERVICING) eqn:Hs;
      [|destruct Hrender; discriminate].
    destruct (Moodlet.renderMoodlet props states CLEANING) eqn:Hc;
      [|destruct Hrender; discriminate].
    destruct a; [rewrite Hf | rewrite Hs | rewrite Hc]; by eexists.
  - intros Hwf. unfold Moodlet.render.
    destruct (proj2 (renderMoodlet_lookup props states FUELLING)
                (well_formed_lookup _ _ Hwf)) as [f ->].
    destruct (proj2 (renderMoodlet_lookup props states SERVICING)
                (well_formed_lookup _ _ Hwf)) as [s' ->].
    destruct (proj2 (renderMoodlet_lookup props states CLEANING)
                (well_formed_lookup _ _ Hwf)) as [c ->].
    simpl. by eexists.
Qed.

(** X1. Rendering fails exactly when a key is missing: the button of an
    action cannot be rendered when [states] has no entry for it (the call
    [state.replace] is made on [undefined]), and the whole component
    renders if and only if all three keys are there. *)
Theorem render_needs_every_key {W : Type} (props : Moodlet.IFSCMoodletProps W)
  (states : gmap FSCAction FSCState) :
  (∀ item, Moodlet.renderMoodlet props states item = None
           ↔ states !! item = None)
  ∧ (is_Some (Moodlet.render props states) ↔ well_formed states).
Proof.
  split.
  - intros item. unfold Moodlet.renderMoodlet.
    destruct (states !! item); simpl; split; intros; done.
  - split.
    + intros Hrender. apply well_formed_all. intros a.
      apply (renderMoodlet_lookup props). unfold Moodlet.render in Hrender.
      destruct (Moodlet.renderMoodlet props states FUELLING) eqn:Hf;
        [|destruct Hrender; discriminate].
      destruct (Moodlet.renderMoodlet props states SERVICING) eqn:Hs;
        [|destruct Hrender; discriminate].
      destruct (Moodlet.renderMoodlet props states CLEANING) eqn:Hc;
        [|destruct Hrender; discriminate].
      destruct a; [rewrite Hf | rewrite Hs | rewrite Hc]; by eexists.
    + intros Hwf. unfold Moodlet.render.
      destruct (proj2 (renderMoodlet_lookup props states FUELLING)
                  (well_formed_lookup _ _ Hwf)) as [f ->].
      destruct (proj2 (renderMoodlet_lookup props states SERVICING)
                  (well_formed_lookup _ _ Hwf)) as [s' ->].
      destruct (proj2 (renderMoodlet_lookup props states CLEANING)
                  (well_formed_lookup _ _ Hwf)) as [c ->].
      simpl. by eexists.
Qed.

(** X2. On a map with all three keys the component renders exactly three
    buttons, for FUELLING, SERVICING and CLEANING in that order; each is
    the button [renderMoodlet] makes for its key, and each carries the
    [disabled] prop as its own [disabled] attribute. *)
Theorem render_three_buttons {W : Type} (props : Moodlet.IFSCMoodletProps W)
  (states : gmap FSCAction FSCState) :
  well_formed states →
  ∃ view, Moodlet.render props states = Some view
    ∧ button_key <$> buttons view = [FUELLING; SERVICING; CLEANING]
    ∧ Forall (λ b, Moodlet.renderMoodlet props states (button_key b) = Some b
                   ∧ button_disabled b = Moodlet.disabled_ props)
        (buttons view).
Proof.
  intros Hwf.
  destruct (well_formed_lookup _ FUELLING Hwf) as [f Hf].
  destruct (well_formed_lookup _ SERVICING Hwf) as [s' Hs].
  destruct (well_formed_lookup _ CLEANING Hwf) as [c Hc].
  unfold Moodlet.render, Moodlet.renderMoodlet. rewrite Hf, Hs, Hc.
  simpl. eexists. split; [reflexivity|]. simpl. split; [reflexivity|].
  repeat (constructor;
          [split; [simpl; by rewrite ?Hf, ?Hs, ?Hc | reflexivity]|]).
  constructor.
Qed.

Lemma render_three_buttons_witness :
  let props := App.disabled_instance in
  let states := Moodlet.initial_states props in
  well_formed states
  ∧ ∃ view, Moodlet.render props states = Some view
      ∧ button_key <$> buttons view = [FUELLING; SERVICING; CLEANING]
      ∧ Forall (λ b, Moodlet.renderMoodlet props states (button_key b) = Some b
                     ∧ button_disabled b = Moodlet.disabled_ props)
          (buttons view).
Proof.
  intros props states.
  assert (Hwf : well_formed states) by reflexivity.
  split; [exact Hwf|]. exact (render_three_buttons props states Hwf).
Defined.

(** X3. A mounted component renders for the first time exactly when
    [initialStates] holds no [undefined] value (with one, the first render
    throws at [state.replace]). When it holds none, the component never
    gets stuck: whatever the sequence of clicks and right-clicks, every
    handler runs to its end, the state map keeps its three keys, and the
    component renders again afterwards. *)
Theorem mounted_component_never_stuck {W : Type}
  (props : Moodlet.IFSCMoodletProps W) (w : W) :
  (is_Some (Moodlet.render props (states_cell (Moodlet.mount props w)))
   ↔ ∀ a, Moodlet.initialStates_ props !! a ≠ Some None)
  ∧ ((∀ a, Moodlet.initialStates_ props !! a ≠ Some None) →
     ∀ gs : list (Gesture * FSCAction),
       ∃ rt', Moodlet.activate_all props gs (Moodlet.mount props w)
                = Some (tt, rt')
         ∧ well_formed (states_cell rt')
         ∧ is_Some (Moodlet.render props (states_cell rt'))).
Proof.
  split.
  - rewrite render_is_Some_iff. apply initial_states_well_formed_iff.
  - intros Hdefined gs.
    destruct (activate_all_total props gs (Moodlet.mount props w))
      as (rt' & Hrun & Hwf).
    { by apply initial_states_well_formed_iff. }
    exists rt'. split; [exact Hrun|]. split; [exact Hwf|].
    by apply render_is_Some_iff.
Qed.

Lemma mounted_component_never_stuck_witness :
  let props := App.word_instance in
  let gs := [(Click, FUELLING); (ContextMenu, SERVICING); (Click, FUELLING)] in
  (∀ a, Moodlet.initialStates_ props !! a ≠ Some None)
  ∧ ∃ rt', Moodlet.activate_all props gs (Moodlet.mount props []) = Some (tt, rt')
      ∧ well_formed (states_cell rt')
      ∧ is_Some (Moodlet.render props (states_cell rt')).
Proof.
  intros props gs.
  assert (Hdefined : ∀ a, Moodlet.initialStates_ props !! a ≠ Some None)
    by (intros []; discriminate).
  split; [exact Hdefined|].
  exact (proj2 (mounted_component_never_stuck props []) Hdefined gs).
Defined.

(** X4. The tooltip of a button, in both versions, is the action name,
    " - ", and the state name with every underscore turned into a space:
    [replace('_', ' ')] touches only the first underscore, and no state
    name has a second one, so no underscore is left in any tooltip. *)
Theorem title_has_no_underscore {W : Type}
  (props : Moodlet.IFSCMoodletProps W) (props1 : MoodletV1.FSCMoodletProps W)
  (cn : list (option string) → string)
  (states : gmap FSCAction FSCState) (item : FSCAction) (s : FSCState) :
  states !! item = Some s →
  ∃ b b1,
    Moodlet.renderMoodlet props states item = Some b
    ∧ MoodletV1.renderMoodlet props1 cn states item = Some b1
    ∧ button_title b
        = action_literal item ++ " - "
            ++ replace_every "_"%char " " (state_literal s)
    ∧ button_title b1 = button_title b
    ∧ occurs "_"%char (button_title b) = false.
Proof.
  intros Hs. unfold Moodlet.renderMoodlet, MoodletV1.renderMoodlet.
  rewrite Hs. simpl. eexists. eexists.
  split; [reflexivity|]. split; [reflexivity|]. simpl.
  split; [|split]; [| reflexivity |]; destruct item, s; reflexivity.
Qed.

Lemma title_has_no_underscore_witness :
  let props := App.word_instance in
  let props1 : MoodletV1.FSCMoodletProps App.Console :=
    MoodletV1.MkProps None None None None in
  let states := Moodlet.initial_states props in
  states !! FUELLING = Some NOT_REQUIRED
  ∧ ∃ b b1,
      Moodlet.renderMoodlet props states FUELLING = Some b
      ∧ MoodletV1.renderMoodlet props1 joinClassNames states FUELLING = Some b1
      ∧ button_title b
          = action_literal FUELLING ++ " - "
              ++ replace_every "_"%char " " (state_literal NOT_REQUIRED)
      ∧ button_title b1 = button_title b
      ∧ occurs "_"%char (button_title b) = false.
Proof.
  intros props props1 states.
  assert (Hs : states !! FUELLING = Some NOT_REQUIRED) by reflexivity.
  split; [exact Hs|].
  exact (title_has_no_underscore props props1 joinClassNames states FUELLING
           NOT_REQUIRED Hs).
Defined.

(** X5. The class of a rendered button tells its state: two buttons of
    the same component (same variant, same [disabled]) that carry the same
    [className] show the same state, whatever their actions. In the same
    way the four strings of [getStateStyle], and the four of the first
    version's [getStateColor], are pairwise different. *)
Theorem button_class_determines_state {W : Type}
  (props : Moodlet.IFSCMoodletProps W)
  (states1 states2 : gmap FSCAction FSCState) (item1 item2 : FSCAction)
  (b1 b2 : Button) :
  Moodlet.renderMoodlet props states1 item1 = Some b1 →
  Moodlet.renderMoodlet props states2 item2 = Some b2 →
  button_className b1 = button_className b2 →
  states1 !! item1 = states2 !! item2
  ∧ NoDup (Moodlet.getStateStyle props
             <$> [NOT_REQUIRED; REQUIRED; CURRENT; COMPLETED])
  ∧ NoDup (MoodletV1.getStateColor
             <$> [NOT_REQUIRED; REQUIRED; CURRENT; COMPLETED]).
Proof.
  intros H1 H2 Hclass.
  assert (Hstyles : NoDup (Moodlet.getStateStyle props
                             <$> [NOT_REQUIRED; REQUIRED; CURRENT; COMPLETED])).
  { unfold Moodlet.getStateStyle.
    destruct (Moodlet.disabled_ props);
      apply (bool_decide_unpack _); vm_compute; reflexivity. }
  split; [|split; [exact Hstyles|]].
  - unfold Moodlet.renderMoodlet in H1, H2.
    destruct (states1 !! item1) as [s1|]; [|discriminate].
    destruct (states2 !! item2) as [s2|]; [|discriminate].
    simpl in H1, H2. injection H1 as <-. injection H2 as <-.
    simpl in Hclass. f_equal.
    unfold Moodlet.getStateStyle in Hclass.
    destruct (Moodlet.variant_ props), (Moodlet.disabled_ props), s1, s2;
      first [reflexivity | vm_compute in Hclass; discriminate].
  - apply (bool_decide_unpack _); vm_compute; reflexivity.
Qed.

Lemma button_class_determines_state_witness :
  let props := App.letter_instance in
  let states := Moodlet.initial_states props in
  let b1 := MkButton SERVICING (Some "S")
    "rounded-full font-medium focus:outline-none focus:ring-2 focus:ring-offset-2 focus:ring-purple-500 w-8 h-8 transition-colors duration-200 bg-red-200 text-red-800 hover:bg-red-300"
    "SERVICING - CURRENT" false in
  let b2 := MkButton FUELLING (Some "F")
    "rounded-full font-medium focus:outline-none focus:ring-2 focus:ring-offset-2 focus:ring-purple-500 w-8 h-8 transition-colors duration-200 bg-red-200 text-red-800 hover:bg-red-300"
    "FUELLING - CURRENT" false in
  Moodlet.renderMoodlet props states SERVICING = Some b1
  ∧ Moodlet.renderMoodlet props {[FUELLING := CURRENT]} FUELLING = Some b2
  ∧ button_className b1 = button_className b2
  ∧ states !! SERVICING = ({[FUELLING := CURRENT]} : gmap _ _) !! FUELLING
  ∧ NoDup (Moodlet.getStateStyle props
             <$> [NOT_REQUIRED; REQUIRED; CURRENT; COMPLETED])
  ∧ NoDup (MoodletV1.getStateColor
             <$> [NOT_REQUIRED; REQUIRED; CURRENT; COMPLETED]).
Proof.
  intros props states b1 b2.
  assert (H1 : Moodlet.renderMoodlet props states SERVICING = Some b1)
    by reflexivity.
  assert (H2 : Moodlet.renderMoodlet props {[FUELLING := CURRENT]} FUELLING
               = Some b2) by reflexivity.
  assert (H3 : button_className b1 = button_className b2) by reflexivity.
  split; [exact H1|]. split; [exact H2|]. split; [exact H3|].
  exact (button_class_determines_state props states {[FUELLING := CURRENT]}
           SERVICING FUELLING b1 b2 H1 H2 H3).
Defined.

(** X6. Disabling the component only adds to the style of a state: the
    style string with [disabled] true is the style string with [disabled]
    false (or not given) followed by " opacity-50 cursor-not-allowed". *)
Theorem getStateStyle_disabled_suffix {W : Type}
  (i : option (gmap FSCAction (option FSCState))) (v : option Variant)
  (c : option string) (cb : option (FSCAction → FSCState → W → W))
  (s : FSCState) :
  Moodlet.getStateStyle (Moodlet.MkProps i v c cb (Some true)) s
    = Moodlet.getStateStyle (Moodlet.MkProps i v c cb None) s
        ++ " opacity-50 cursor-not-allowed"
  ∧ Moodlet.getStateStyle (Moodlet.MkProps i v c cb (Some false)) s
      = Moodlet.getStateStyle (Moodlet.MkProps i v c cb None) s.
Proof. destruct s; split; reflexivity. Qed.

(** X7. The class of the outer element is the fixed layout classes, then
    the cursor class chosen by [disabled], then the caller's [className]
    last; a [className] that is not given or is the empty string adds
    nothing, not even a space. *)
Theorem container_className_composition {W : Type}
  (props : Moodlet.IFSCMoodletProps W) (states : gmap FSCAction FSCState)
  (view : View) :
  Moodlet.render props states = Some view →
  container_className view
    = "flex gap-2 items-center p-1 "
        ++ (if Moodlet.disabled_ props then "cursor-not-allowed"
            else "cursor-pointer")
        ++ match Moodlet.className props with
           | Some c => if decide (c = "") then "" else " " ++ c
           | None => ""
           end.
Proof.
  unfold Moodlet.render. intros Hrender.
  destruct (Moodlet.renderMoodlet props states FUELLING); [|discriminate].
  destruct (Moodlet.renderMoodlet props states SERVICING); [|discriminate].
  destruct (Moodlet.renderMoodlet props states CLEANING); [|discriminate].
  simpl in Hrender. injection Hrender as <-. simpl.
  destruct (Moodlet.className props) as [[|ch c]|], (Moodlet.disabled_ props);
    reflexivity.
Qed.

Lemma container_className_composition_witness :
  let props : Moodlet.IFSCMoodletProps unit :=
    Moodlet.MkProps None None (Some "mt-4") None (Some true) in
  let view :=
    MkView "flex gap-2 items-center p-1 cursor-not-allowed mt-4"
      (omap (Moodlet.renderMoodlet props default_states)
         [FUELLING; SERVICING; CLEANING]) in
  Moodlet.render props default_states = Some view
  ∧ container_className view
      = "flex gap-2 items-center p-1 "
          ++ (if Moodlet.disabled_ props then "cursor-not-allowed"
              else "cursor-pointer")
          ++ match Moodlet.className props with
             | Some c => if decide (c = "") then "" else " " ++ c
             | None => ""
             end.
Proof.
  intros props view.
  assert (H : Moodlet.render props default_states = Some view) by reflexivity.
  split; [exact H|].
  exact (container_className_composition props default_states view H).
Defined.

(** X8. The three buttons can be told apart by their labels and by their
    tooltips: in either variant the three labels are pairwise different,
    and so are the three tooltips. *)
Theorem labels_distinct {W : Type} (props : Moodlet.IFSCMoodletProps W)
  (states : gmap FSCAction FSCState) (view : View) :
  Moodlet.render props states = Some view →
  NoDup (button_label <$> buttons view)
  ∧ NoDup (button_title <$> buttons view).
Proof.
  unfold Moodlet.render, Moodlet.renderMoodlet. intros Hrender.
  destruct (states !! FUELLING) as [f|]; [|discriminate].
  destruct (states !! SERVICING) as [s|]; [|discriminate].
  destruct (states !! CLEANING) as [c|]; [|discriminate].
  simpl in Hrender. injection Hrender as <-. simpl. split.
  - destruct (Moodlet.variant_ props);
      apply (bool_decide_unpack _); vm_compute; reflexivity.
  - destruct f, s, c; apply (bool_decide_unpack _); vm_compute; reflexivity.
Qed.

Lemma labels_distinct_witness :
  let props := App.word_instance in
  let states := Moodlet.initial_states props in
  let view :=
    MkView "flex gap-2 items-center p-1 cursor-pointer"
      (omap (Moodlet.renderMoodlet props states)
         [FUELLING; SERVICING; CLEANING]) in
  Moodlet.render props states = Some view
  ∧ NoDup (button_label <$> buttons view)
  ∧ NoDup (button_title <$> buttons view).
Proof.
  intros props states view.
  assert (H : Moodlet.render props states = Some view) by reflexivity.
  split; [exact H|]. exact (labels_distinct props states view H).
Defined.

(** ** How handlers compose *)

Lemma handleClick_click_snapshot {W : Type} (props : Moodlet.IFSCMoodletProps W)
  (states : gmap FSCAction FSCState) (item : FSCAction) (s : FSCState)
  (rt : Runtime W) :
  Moodlet.disabled_ props = false →
  states !! item = Some s →
  Moodlet.onClick props states item rt =
    Some (tt, MkRuntime (<[item := Moodlet.getNextState s]> (states_cell rt))
                        (S (setStates_calls rt))
                        (notified (Moodlet.onChange props) item
                           (Moodlet.getNextState s) (host rt))
                        true).
Proof.
  intros Hd Hs.
  unfold Moodlet.onClick, Moodlet.handleClick, mbind, M_bind, preventDefault,
    read_state, setStates, optional_call, notified, mret, M_ret.
  simpl. rewrite Hd, Hs. simpl.
  destruct (Moodlet.onChange props); reflexivity.
Qed.

Lemma getNextState_moves (s : FSCState) : Moodlet.getNextState s ≠ s.
Proof. destruct s; discriminate. Qed.

(** X9. A click handler computes the new state from the [states] of the
    render that created it, not from the latest value of the cell. So when
    the handler of one render runs twice before the next render, the
    action advances one step only, not two, although [setStates] and
    [onChange] are both called twice, with the same new state; the other
    entries are those of the latest cell. *)
Theorem same_render_double_click {W : Type}
  (props : Moodlet.IFSCMoodletProps W) (states : gmap FSCAction FSCState)
  (item : FSCAction) (s : FSCState) (rt : Runtime W) :
  Moodlet.disabled_ props = false →
  states !! item = Some s →
  ∃ rt', (Moodlet.onClick props states item ;;
          Moodlet.onClick props states item) rt = Some (tt, rt')
    ∧ states_cell rt' = <[item := Moodlet.getNextState s]> (states_cell rt)
    ∧ states_cell rt' !! item
        ≠ Some (Moodlet.getNextState (Moodlet.getNextState s))
    ∧ setStates_calls rt' = S (S (setStates_calls rt))
    ∧ host rt' =
        notified (Moodlet.onChange props) item (Moodlet.getNextState s)
          (notified (Moodlet.onChange props) item (Moodlet.getNextState s)
             (host rt)).
Proof.
  intros Hd Hs. eexists. split.
  - unfold mbind at 1. unfold M_bind.
    rewrite (handleClick_click_snapshot props states item s rt Hd Hs).
    apply (handleClick_click_snapshot props states item s _ Hd Hs).
  - simpl. split; [apply insert_insert_eq|].
    split; [|split; reflexivity].
    rewrite insert_insert_eq, lookup_insert_eq. intros Heq.
    injection Heq as Heq. symmetry in Heq. by apply getNextState_moves in Heq.
Qed.

Lemma same_render_double_click_witness :
  let props := App.letter_instance in
  let rt := Moodlet.mount props [] in
  let states := states_cell rt in
  Moodlet.disabled_ props = false
  ∧ states !! FUELLING = Some REQUIRED
  ∧ ∃ rt', (Moodlet.onClick props states FUELLING ;;
            Moodlet.onClick props states FUELLING) rt = Some (tt, rt')
      ∧ states_cell rt'
          = <[FUELLING := Moodlet.getNextState REQUIRED]> (states_cell rt)
      ∧ states_cell rt' !! FUELLING
          ≠ Some (Moodlet.getNextState (Moodlet.getNextState REQUIRED))
      ∧ setStates_calls rt' = S (S (setStates_calls rt))
      ∧ host rt' =
          notified (Moodlet.onChange props) FUELLING
            (Moodlet.getNextState REQUIRED)
            (notified (Moodlet.onChange props) FUELLING
               (Moodlet.getNextState REQUIRED) (host rt)).
Proof.
  intros props rt states.
  assert (Hd : Moodlet.disabled_ props = false) by reflexivity.
  assert (Hs : states !! FUELLING = Some REQUIRED) by reflexivity.
  split; [exact Hd|]. split; [exact Hs|].
  exact (same_render_double_click props states FUELLING REQUIRED rt Hd Hs).
Defined.

Lemma activate_enabled {W : Type} (props : Moodlet.IFSCMoodletProps W)
  (g : Gesture) (item : FSCAction) (s : FSCState) (rt : Runtime W) :
  Moodlet.disabled_ props = false →
  states_cell rt !! item = Some s →
  let newState := match g with
                  | Click => Moodlet.getNextState s
                  | ContextMenu => NOT_REQUIRED
                  end in
  Moodlet.activate props g item rt =
    Some (tt, MkRuntime (<[item := newState]> (states_cell rt))
                        (S (setStates_calls rt))
                        (notified (Moodlet.onChange props) item newState
                           (host rt))
                        true).
Proof.
  intros Hd Hs. destruct g; simpl.
  - by apply activate_Click.
  - by apply activate_ContextMenu.
Qed.

Lemma activate_all_cons {W : Type} (props : Moodlet.IFSCMoodletProps W)
  (g : Gesture) (item : FSCAction) (gs : list (Gesture * FSCAction))
  (rt : Runtime W) :
  Moodlet.activate_all props ((g, item) :: gs) rt =
    match Moodlet.activate props g item rt with
    | Some (_, rt') => Moodlet.activate_all props gs rt'
    | None => None
    end.
Proof.
  change (Moodlet.activate_all props ((g, item) :: gs) rt)
    with ((Moodlet.activate props g item ;; Moodlet.activate_all props gs) rt).
  unfold mbind, M_bind. by destruct (Moodlet.activate props g item rt) as [[[] ?]|].
Qed.

Lemma activate_all_nil {W : Type} (props : Moodlet.IFSCMoodletProps W)
  (rt : Runtime W) :
  Moodlet.activate_all props [] rt = Some (tt, rt).
Proof. reflexivity. Qed.

(** X10. Gestures on two different actions commute on the state map:
    whichever comes first, the two entries end at the same states and the
    third entry is untouched. *)
Theorem gestures_on_different_actions_commute {W : Type}
  (props : Moodlet.IFSCMoodletProps W) (g1 g2 : Gesture) (A B : FSCAction)
  (rt : Runtime W) :
  well_formed (states_cell rt) →
  A ≠ B →
  ∃ rt1 rt2,
    Moodlet.activate_all props [(g1, A); (g2, B)] rt = Some (tt, rt1)
    ∧ Moodlet.activate_all props [(g2, B); (g1, A)] rt = Some (tt, rt2)
    ∧ states_cell rt1 = states_cell rt2
    ∧ setStates_calls rt1 = setStates_calls rt2.
Proof.
  intros Hwf Hne. rewrite !activate_all_cons.
  destruct (Moodlet.disabled_ props) eqn:Hd.
  - rewrite !(activate_disabled props _ _ _ Hd), !activate_all_cons.
    rewrite !(activate_disabled props _ _ _ Hd), !activate_all_nil.
    eexists. eexists. by repeat split.
  - destruct (well_formed_lookup _ A Hwf) as [a Ha].
    destruct (well_formed_lookup _ B Hwf) as [b Hb].
    rewrite (activate_enabled props g1 A a rt Hd Ha).
    rewrite (activate_enabled props g2 B b rt Hd Hb).
    rewrite !activate_all_cons.
    erewrite (activate_enabled props g2 B b);
      [|exact Hd|simpl; by rewrite lookup_insert_ne].
    erewrite (activate_enabled props g1 A a);
      [|exact Hd|simpl; by rewrite lookup_insert_ne].
    rewrite !activate_all_nil.
    eexists. eexists. split; [reflexivity|]. split; [reflexivity|]. simpl.
    split; [|reflexivity]. by apply insert_insert_ne.
Qed.

Lemma gestures_on_different_actions_commute_witness :
  let props := App.word_instance in
  let rt := Moodlet.mount props [] in
  well_formed (states_cell rt)
  ∧ SERVICING ≠ CLEANING
  ∧ ∃ rt1 rt2,
      Moodlet.activate_all props [(Click, SERVICING); (ContextMenu, CLEANING)] rt
        = Some (tt, rt1)
      ∧ Moodlet.activate_all props [(ContextMenu, CLEANING); (Click, SERVICING)] rt
          = Some (tt, rt2)
      ∧ states_cell rt1 = states_cell rt2
      ∧ setStates_calls rt1 = setStates_calls rt2.
Proof.
  intros props rt.
  assert (Hwf : well_formed (states_cell rt)) by reflexivity.
  assert (Hne : SERVICING ≠ CLEANING) by discriminate.
  split; [exact Hwf|]. split; [exact Hne|].
  exact (gestures_on_different_actions_commute props Click ContextMenu
           SERVICING CLEANING rt Hwf Hne).
Defined.

(** X11. A right-click wipes the history of an action: after it, n clicks
    leave the action at the n-th successor of NOT_REQUIRED, whatever its
    state was before (one click gives REQUIRED, two CURRENT, three
    COMPLETED); and a second right-click in a row changes nothing in the
    state map. *)
Theorem reset_then_clicks {W : Type} (props : Moodlet.IFSCMoodletProps W)
  (A : FSCAction) (n : nat) (rt : Runtime W) :
  Moodlet.disabled_ props = false →
  ∃ rt' once twice,
    Moodlet.activate_all props ((ContextMenu, A) :: replicate n (Click, A)) rt
      = Some (tt, rt')
    ∧ states_cell rt' !! A = Some (Nat.iter n Moodlet.getNextState NOT_REQUIRED)
    ∧ Moodlet.activate_all props [(ContextMenu, A)] rt = Some (tt, once)
    ∧ Moodlet.activate_all props [(ContextMenu, A); (ContextMenu, A)] rt
        = Some (tt, twice)
    ∧ states_cell twice = states_cell once
    ∧ states_cell once !! A = Some NOT_REQUIRED.
Proof.
  intros Hd. rewrite !activate_all_cons.
  rewrite (activate_ContextMenu props A rt Hd).
  rewrite !activate_all_cons.
  rewrite (activate_ContextMenu props A _ Hd), !activate_all_nil. simpl.
  edestruct (activate_all_clicks props A n Hd NOT_REQUIRED) as (rt' & Hrun & Hcell);
    [|exists rt'; eexists; eexists; split; [exact Hrun|]].
  - simpl. apply lookup_insert_eq.
  - split; [exact Hcell|]. split; [reflexivity|]. split; [reflexivity|]. simpl.
    split; [apply insert_insert_eq | apply lookup_insert_eq].
Qed.

Lemma reset_then_clicks_witness :
  let props := App.letter_instance in
  let rt := Moodlet.mount props [] in
  Moodlet.disabled_ props = false
  ∧ ∃ rt' once twice,
      Moodlet.activate_all props
        ((ContextMenu, CLEANING) :: replicate 3 (Click, CLEANING)) rt
        = Some (tt, rt')
      ∧ states_cell rt' !! CLEANING
          = Some (Nat.iter 3 Moodlet.getNextState NOT_REQUIRED)
      ∧ Moodlet.activate_all props [(ContextMenu, CLEANING)] rt = Some (tt, once)
      ∧ Moodlet.activate_all props
          [(ContextMenu, CLEANING); (ContextMenu, CLEANING)] rt
          = Some (tt, twice)
      ∧ states_cell twice = states_cell once
      ∧ states_cell once !! CLEANING = Some NOT_REQUIRED.
Proof.
  intros props rt.
  assert (Hd : Moodlet.disabled_ props = false) by reflexivity.
  split; [exact Hd|]. exact (reset_then_clicks props CLEANING 3 rt Hd).
Defined.

(** X12. From the second click on, the state of an action alternates
    between CURRENT and COMPLETED for good: for every starting state and
    every n of at least 2, the n-th successor is one of these two, and two
    more clicks bring the same state back. *)
Theorem clicks_settle_in_two_cycle (s : FSCState) (n : nat) :
  (2 ≤ n)%nat →
  Nat.iter (n + 2) Moodlet.getNextState s = Nat.iter n Moodlet.getNextState s
  ∧ (Nat.iter n Moodlet.getNextState s = CURRENT
     ∨ Nat.iter n Moodlet.getNextState s = COMPLETED)
  ∧ Nat.iter (n + 1) Moodlet.getNextState s
      ≠ Nat.iter n Moodlet.getNextState s.
Proof.
  intros Hn.
  assert (Hcases : Nat.iter n Moodlet.getNextState s = CURRENT
                   ∨ Nat.iter n Moodlet.getNextState s = COMPLETED).
  { destruct n as [|[|n]]; [lia | lia |]. clear Hn.
    induction n as [|n IH].
    - destruct s; simpl; auto.
    - rewrite Nat.iter_succ. destruct IH as [-> | ->]; auto. }
  split; [|split; [exact Hcases|]].
  - replace (n + 2)%nat with (S (S n)) by lia. rewrite !Nat.iter_succ.
    by destruct Hcases as [-> | ->].
  - replace (n + 1)%nat with (S n) by lia. rewrite Nat.iter_succ.
    apply getNextState_moves.
Qed.

Lemma clicks_settle_in_two_cycle_witness :
  (2 ≤ 3)%nat
  ∧ Nat.iter (3 + 2) Moodlet.getNextState NOT_REQUIRED
      = Nat.iter 3 Moodlet.getNextState NOT_REQUIRED
  ∧ (Nat.iter 3 Moodlet.getNextState NOT_REQUIRED = CURRENT
     ∨ Nat.iter 3 Moodlet.getNextState NOT_REQUIRED = COMPLETED)
  ∧ Nat.iter (3 + 1) Moodlet.getNextState NOT_REQUIRED
      ≠ Nat.iter 3 Moodlet.getNextState NOT_REQUIRED.
Proof.
  assert (H : (2 ≤ 3)%nat) by lia.
  split; [exact H|]. exact (clicks_settle_in_two_cycle NOT_REQUIRED 3 H).
Defined.

(** X13. A click cannot be undone from the new state alone: REQUIRED and
    COMPLETED both go to CURRENT, so no function of the new state gives
    back the old one, in either version. *)
Theorem getNextState_has_no_inverse :
  Moodlet.getNextState REQUIRED = Moodlet.getNextState COMPLETED
  ∧ (¬ ∃ previous : FSCState → FSCState,
         ∀ s, previous (Moodlet.getNextState s) = s)
  ∧ (¬ ∃ previous : FSCState → FSCState,
         ∀ s, previous (MoodletV1.getNextState s) = s).
Proof.
  split; [reflexivity|].
  split; intros [previous Hprev];
    pose proof (Hprev REQUIRED) as H1; pose proof (Hprev COMPLETED) as H2;
    change (previous CURRENT = REQUIRED) in H1;
    change (previous CURRENT = COMPLETED) in H2; congruence.
Qed.

(** ** The two versions side by side *)

(** X14. While [disabled] is false, the current version handles every
    gesture as the first version does: with the same [onChange], a click
    or right-click on the same instance gives the same result in both. *)
Theorem versions_agree_when_enabled {W : Type}
  (props : Moodlet.IFSCMoodletProps W) (props1 : MoodletV1.FSCMoodletProps W)
  (g : Gesture) (item : FSCAction) (rt : Runtime W) :
  Moodlet.disabled_ props = false →
  Moodlet.onChange props = MoodletV1.onChange props1 →
  Moodlet.activate props g item rt = MoodletV1.activate props1 g item rt.
Proof.
  intros Hd Hcb. destruct g.
  - destruct (states_cell rt !! item) as [s|] eqn:Hs.
    + rewrite (activate_Click props item s rt Hd Hs).
      rewrite (V1_activate_Click props1 item s rt Hs).
      rewrite Hcb. by destruct s.
    + rewrite (activate_Click_stuck props item rt Hd Hs).
      unfold MoodletV1.activate, MoodletV1.onClick, MoodletV1.handleClick,
        mbind, M_bind, preventDefault, read_state.
      simpl. by rewrite Hs.
  - rewrite (activate_ContextMenu props item rt Hd).
    rewrite (V1_activate_ContextMenu props1 item rt). by rewrite Hcb.
Qed.

Lemma versions_agree_when_enabled_witness :
  let props := App.letter_instance in
  let props1 : MoodletV1.FSCMoodletProps App.Console :=
    MoodletV1.MkProps None None None (Some App.handleStateChange) in
  let rt := Moodlet.mount props [] in
  Moodlet.disabled_ props = false
  ∧ Moodlet.onChange props = MoodletV1.onChange props1
  ∧ Moodlet.activate props Click CLEANING rt
      = MoodletV1.activate props1 Click CLEANING rt.
Proof.
  intros props props1 rt.
  assert (Hd : Moodlet.disabled_ props = false) by reflexivity.
  assert (Hcb : Moodlet.onChange props = MoodletV1.onChange props1)
    by reflexivity.
  split; [exact Hd|]. split; [exact Hcb|].
  exact (versions_agree_when_enabled props props1 Click CLEANING rt Hd Hcb).
Defined.

(** X15. An [initialStates] that names all three actions replaces the
    defaults completely: the component starts with exactly that map, in
    both versions. In the current version this also holds when some of
    the three values are [undefined]: no default comes back for them. *)
Theorem complete_initialStates_taken_as_is {W : Type}
  (m : gmap FSCAction FSCState) (v : option Variant) (c : option string)
  (cb : option (FSCAction → FSCState → W → W)) (d : option bool) :
  well_formed m →
  Moodlet.initial_states (Moodlet.MkProps (Some (Some <$> m)) v c cb d) = m
  ∧ MoodletV1.initial_states (MoodletV1.MkProps (Some m) v c cb) = m
  ∧ ∀ object : gmap FSCAction (option FSCState),
      dom object = all_actions →
      Moodlet.initial_states (Moodlet.MkProps (Some object) v c cb d)
        = defined_entries object.
Proof.
  intros Hwf.
  assert (Hspread : spread default_states m = m).
  { apply map_eq. intros a. rewrite spread_lookup.
    by destruct (well_formed_lookup _ a Hwf) as [s ->]. }
  split; [|split; [exact Hspread|]].
  - apply map_eq. intros a. rewrite initial_states_lookup.
    unfold Moodlet.initialStates_. simpl. rewrite lookup_fmap.
    by destruct (well_formed_lookup _ a Hwf) as [s ->].
  - intros object Hdom. apply map_eq. intros a.
    rewrite initial_states_lookup. unfold Moodlet.initialStates_. simpl.
    unfold defined_entries. rewrite lookup_omap.
    assert (Ha : is_Some (object !! a)).
    { apply elem_of_dom. rewrite Hdom. apply all_actions_complete. }
    by destruct Ha as [supplied ->].
Qed.

Lemma complete_initialStates_taken_as_is_witness :
  let m : gmap FSCAction FSCState :=
    <[CLEANING := COMPLETED]> (<[SERVICING := CURRENT]>
      (<[FUELLING := REQUIRED]> ∅)) in
  well_formed m
  ∧ Moodlet.initial_states
      (Moodlet.MkProps (Some (Some <$> m)) None None
         (Some App.handleStateChange) None) = m
  ∧ MoodletV1.initial_states
      (MoodletV1.MkProps (Some m) None None (Some App.handleStateChange)) = m
  ∧ ∀ object : gmap FSCAction (option FSCState),
      dom object = all_actions →
      Moodlet.initial_states
        (Moodlet.MkProps (Some object) None None
           (Some App.handleStateChange) None)
        = defined_entries object.
Proof.
  intros m.
  assert (Hwf : well_formed m) by reflexivity.
  split; [exact Hwf|].
  exact (complete_initialStates_taken_as_is m None None
           (Some App.handleStateChange) None Hwf).
Defined.

(** ** What the host sees *)

Lemma activate_all_calls {W : Type} (props : Moodlet.IFSCMoodletProps W)
  (f : FSCAction → FSCState → W → W) (gs : list (Gesture * FSCAction)) :
  Moodlet.disabled_ props = false →
  Moodlet.onChange props = Some f →
  ∀ rt : Runtime W,
    well_formed (states_cell rt) →
    ∃ rt' calls,
      Moodlet.activate_all props gs rt = Some (tt, rt')
      ∧ calls.*1 = gs.*2
      ∧ states_cell rt' = replay calls (states_cell rt)
      ∧ host rt' = deliver f calls (host rt)
      ∧ setStates_calls rt' = (length gs + setStates_calls rt)%nat
      ∧ ∀ k, ∃ rtk,
          Moodlet.activate_all props (take k gs) rt = Some (tt, rtk)
          ∧ states_cell rtk = replay (take k calls) (states_cell rt)
          ∧ host rtk = deliver f (take k calls) (host rt).
Proof.
  intros Hd Hcb. induction gs as [|[g item] gs IH]; intros rt Hwf.
  - exists rt, []. repeat split. intros k. exists rt. by destruct k.
  - destruct (well_formed_lookup _ item Hwf) as [s Hs].
    pose proof (activate_enabled props g item s rt Hd Hs) as Hstep.
    simpl in Hstep. rewrite Hcb in Hstep.
    set (newState := match g with
                     | Click => Moodlet.getNextState s
                     | ContextMenu => NOT_REQUIRED
                     end) in Hstep.
    set (rt1 := MkRuntime (<[item := newState]> (states_cell rt))
                  (S (setStates_calls rt)) (f item newState (host rt)) true)
      in Hstep.
    destruct (IH rt1)
      as (rt' & calls & Hrun & Hitems & Hcell & Hhost & Hcount & Hprefix).
    { by apply well_formed_insert. }
    exists rt', ((item, newState) :: calls).
    rewrite activate_all_cons, Hstep.
    split; [exact Hrun|]. split; [by rewrite !fmap_cons, Hitems|].
    split; [exact Hcell|]. split; [exact Hhost|].
    split; [rewrite Hcount; simpl; lia|].
    intros [|k].
    + exists rt. by repeat split.
    + destruct (Hprefix k) as (rtk & Hrunk & Hcellk & Hhostk).
      exists rtk. rewrite !firstn_cons, activate_all_cons, Hstep.
      by repeat split.
Qed.

(** X16. A host that writes every [onChange] notification into its own
    copy of the state map stays in step with the component: over any
    sequence of gestures on an enabled component, [onChange] is called
    once per gesture, for the action of that gesture and in the order of
    the gestures, [setStates] is called as often, and replaying the
    notified (action, state) pairs on the starting map gives the final
    map; the same holds after every prefix of the sequence, so the copy
    is right after each single gesture. *)
Theorem onChange_mirrors_state {W : Type} (props : Moodlet.IFSCMoodletProps W)
  (f : FSCAction → FSCState → W → W) (gs : list (Gesture * FSCAction))
  (rt : Runtime W) :
  Moodlet.disabled_ props = false →
  Moodlet.onChange props = Some f →
  well_formed (states_cell rt) →
  ∃ rt' calls,
    Moodlet.activate_all props gs rt = Some (tt, rt')
    ∧ calls.*1 = gs.*2
    ∧ states_cell rt' = replay calls (states_cell rt)
    ∧ host rt' = deliver f calls (host rt)
    ∧ setStates_calls rt' = (length gs + setStates_calls rt)%nat
    ∧ ∀ k, ∃ rtk,
        Moodlet.activate_all props (take k gs) rt = Some (tt, rtk)
        ∧ states_cell rtk = replay (take k calls) (states_cell rt)
        ∧ host rtk = deliver f (take k calls) (host rt).
Proof. intros Hd Hcb Hwf. by apply activate_all_calls. Qed.

Lemma onChange_mirrors_state_witness :
  let props := App.word_instance in
  let gs := [(Click, FUELLING); (ContextMenu, CLEANING); (Click, FUELLING)] in
  let rt := Moodlet.mount props [] in
  Moodlet.disabled_ props = false
  ∧ Moodlet.onChange props = Some App.handleStateChange
  ∧ well_formed (states_cell rt)
  ∧ ∃ rt' calls,
      Moodlet.activate_all props gs rt = Some (tt, rt')
      ∧ calls.*1 = gs.*2
      ∧ states_cell rt' = replay calls (states_cell rt)
      ∧ host rt' = deliver App.handleStateChange calls (host rt)
      ∧ setStates_calls rt' = (length gs + setStates_calls rt)%nat
      ∧ ∀ k, ∃ rtk,
          Moodlet.activate_all props (take k gs) rt = Some (tt, rtk)
          ∧ states_cell rtk = replay (take k calls) (states_cell rt)
          ∧ host rtk = deliver App.handleStateChange (take k calls) (host rt).
Proof.
  intros props gs rt.
  assert (Hd : Moodlet.disabled_ props = false) by reflexivity.
  assert (Hcb : Moodlet.onChange props = Some App.handleStateChange)
    by reflexivity.
  assert (Hwf : well_formed (states_cell rt)) by reflexivity.
  split; [exact Hd|]. split; [exact Hcb|]. split; [exact Hwf|].
  exact (onChange_mirrors_state props App.handleStateChange gs rt Hd Hcb Hwf).
Defined.



(** A click on the disabled instance of the demo page changes nothing at
    all, the event included; a right-click only marks the event. *)
Example scenario_disabled_gestures :
  Moodlet.activate App.disabled_instance Click SERVICING
    (Moodlet.mount App.disabled_instance [])
    = Some (tt, Moodlet.mount App.disabled_instance [])
  ∧ Moodlet.activate App.disabled_instance ContextMenu SERVICING
      (Moodlet.mount App.disabled_instance [])
      = Some (tt, MkRuntime (Moodlet.initial_states App.disabled_instance)
                    0 [] true).
Proof. split; reflexivity. Qed.

(** X18. The demo host's [handleStateChange] only ever adds to the
    console: a run of notifications leaves the earlier lines as they were
    and appends one line per notification, in order, each reading
    "<ACTION> changed to <STATE>". *)
Theorem handleStateChange_appends (calls : list (FSCAction * FSCState))
  (console : App.Console) :
  deliver App.handleStateChange calls console
    = (console ++ (console_line <$> calls))%list
  ∧ length (deliver App.handleStateChange calls console)
      = (length console + length calls)%nat.
Proof.
  assert (Heq : ∀ console',
            deliver App.handleStateChange calls console'
              = (console' ++ (console_line <$> calls))%list).
  { induction calls as [|c calls IH]; intros console'.
    - simpl. by rewrite app_nil_r.
    - change (deliver App.handleStateChange (c :: calls) console')
        with (deliver App.handleStateChange calls
                (App.handleStateChange c.1 c.2 console')).
      rewrite IH. unfold App.handleStateChange.
      rewrite <- app_assoc. reflexivity. }
  split; [apply Heq|].
  rewrite Heq, length_app, length_fmap. reflexivity.
Qed.

(** ** [joinClassNames], put together *)

Lemma string_append_assoc (a b c : string) : (a ++ b) ++ c = a ++ b ++ c.
Proof.
  induction a as [|ch a IH]; [reflexivity|].
  change (String ch ((a ++ b) ++ c) = String ch (a ++ b ++ c)).
  by f_equal.
Qed.

Lemma joinClassNames_concat (classes : list (option string)) :
  joinClassNames classes = String.concat " " (present_tokens classes).
Proof.
  unfold joinClassNames. rewrite filter_Boolean_present. apply join_defined.
Qed.

Lemma present_tokens_app (xs ys : list (option string)) :
  present_tokens (xs ++ ys) = (present_tokens xs ++ present_tokens ys)%list.
Proof. apply omap_app. Qed.

Lemma present_tokens_nonempty (classes : list (option string)) :
  Forall (λ s, s ≠ "") (present_tokens classes).
Proof.
  apply Forall_forall. intros s Hs.
  by apply present_tokens_spec in Hs as [_ Hne].
Qed.

Lemma concat_empty (sep : string) (tokens : list string) :
  Forall (λ s, s ≠ "") tokens →
  String.concat sep tokens = "" → tokens = [].
Proof.
  intros Hne Hconcat. destruct tokens as [|t tokens]; [reflexivity|].
  apply Forall_cons in Hne as [Ht _].
  destruct t as [|ch t]; [done|].
  destruct tokens; simpl in Hconcat; discriminate.
Qed.

Lemma concat_app (sep : string) (l1 l2 : list string) :
  l1 ≠ [] → l2 ≠ [] →
  String.concat sep (l1 ++ l2)
    = String.concat sep l1 ++ sep ++ String.concat sep l2.
Proof.
  intros Hl1 Hl2. induction l1 as [|x l1 IH]; [done|].
  destruct l1 as [|x' l1].
  - destruct l2 as [|y l2]; [done|]. reflexivity.
  - change (String.concat sep ((x :: x' :: l1) ++ l2))
      with (x ++ sep ++ String.concat sep ((x' :: l1) ++ l2)).
    rewrite IH by done.
    change (String.concat sep (x :: x' :: l1))
      with (x ++ sep ++ String.concat sep (x' :: l1)).
    by rewrite !string_append_assoc.
Qed.

(** How two joined strings go together: an empty side disappears,
    otherwise one space separates them. *)
Lemma joinClassNames_app_eq (xs ys : list (option string)) :
  joinClassNames (xs ++ ys)
    = if decide (joinClassNames xs = "") then joinClassNames ys
      else if decide (joinClassNames ys = "") then joinClassNames xs
      else joinClassNames xs ++ " " ++ joinClassNames ys.
Proof.
  rewrite !joinClassNames_concat, present_tokens_app.
  pose proof (present_tokens_nonempty xs) as Hxs.
  pose proof (present_tokens_nonempty ys) as Hys.
  destruct (decide (String.concat " " (present_tokens xs) = "")) as [Hx|Hx].
  { apply concat_empty in Hx; [|exact Hxs]. by rewrite Hx. }
  destruct (decide (String.concat " " (present_tokens ys) = "")) as [Hy|Hy].
  { apply concat_empty in Hy; [|exact Hys]. by rewrite Hy, app_nil_r. }
  apply concat_app; intros Hnil.
  - apply Hx. by rewrite Hnil.
  - apply Hy. by rewrite Hnil.
Qed.

Lemma joinClassNames_single (s : string) : joinClassNames [Some s] = s.
Proof. by destruct s. Qed.

(** X19. The result of [joinClassNames] is the empty string exactly
    when every token is [undefined] or the empty string; in particular a
    call with only absent tokens does not produce stray spaces. *)
Theorem joinClassNames_empty_iff (classes : list (option string)) :
  joinClassNames classes = ""
  ↔ Forall (λ c, c = None ∨ c = Some "") classes.
Proof.
  rewrite joinClassNames_concat. split.
  - intros Hempty.
    apply concat_empty in Hempty; [|apply present_tokens_nonempty].
    apply Forall_forall. intros [s|] Hin; [|by left]. right. f_equal.
    destruct (decide (s = "")) as [|Hne]; [done|].
    assert (Hs : s ∈ present_tokens classes) by by apply present_tokens_spec.
    rewrite Hempty in Hs. by apply elem_of_nil in Hs.
  - intros Hall. replace (present_tokens classes) with (@nil string); [done|].
    symmetry. induction Hall as [|c classes [-> | ->] _ IH]; [done| |];
      unfold present_tokens in *; simpl; exact IH.
Qed.

(** X20. Joining a sequence made of two parts gives the two joined
    strings with one space between them, and just the other string when
    one of them is empty; so putting [undefined] or the empty string
    anywhere in the arguments never changes the result. *)
Theorem joinClassNames_app (xs ys : list (option string)) :
  joinClassNames (xs ++ ys)
    = (if decide (joinClassNames xs = "") then joinClassNames ys
       else if decide (joinClassNames ys = "") then joinClassNames xs
       else joinClassNames xs ++ " " ++ joinClassNames ys)
  ∧ joinClassNames (xs ++ None :: ys) = joinClassNames (xs ++ ys)
  ∧ joinClassNames (xs ++ Some "" :: ys) = joinClassNames (xs ++ ys).
Proof.
  split; [apply joinClassNames_app_eq|].
  unfold joinClassNames. rewrite !List.filter_app. simpl. by split.
Qed.

(** X21. Nesting is flattening: a token that is itself the result of
    [joinClassNames], as the style of a state is in the class of a button,
    can be replaced by the tokens it was made of. *)
Theorem joinClassNames_nested (xs ys zs : list (option string)) :
  joinClassNames (xs ++ Some (joinClassNames ys) :: zs)
    = joinClassNames (xs ++ ys ++ zs)
  ∧ joinClassNames [Some (joinClassNames ys)] = joinClassNames ys.
Proof.
  split; [|apply joinClassNames_single].
  rewrite (joinClassNames_app_eq xs (Some (joinClassNames ys) :: zs)).
  rewrite (joinClassNames_app_eq xs (ys ++ zs)).
  change (Some (joinClassNames ys) :: zs)
    with ([Some (joinClassNames ys)] ++ zs)%list.
  rewrite (joinClassNames_app_eq [Some (joinClassNames ys)] zs).
  rewrite (joinClassNames_app_eq ys zs).
  by rewrite joinClassNames_single.
Qed.

(** The class of a disabled CURRENT letter button, written out; it is
    what [joinClassNames] gives on the seven tokens laid flat. *)
Example button_className_flat :
  button_className
    <$> Moodlet.renderMoodlet App.disabled_instance
          (Moodlet.initial_states App.disabled_instance) SERVICING
  = Some (joinClassNames
            [ Some "rounded-full font-medium";
              Some "focus:outline-none focus:ring-2 focus:ring-offset-2 focus:ring-purple-500";
              Some "w-8 h-8";
              Some "transition-colors duration-200";
              Some "bg-red-200 text-red-800 hover:bg-red-300";
              Some "opacity-50 cursor-not-allowed" ]).
Proof. vm_compute. reflexivity. Qed.
